(** * Shallow embedding of the SOW extraction pipeline

    Sources embedded here:
    - [src/agents/data_extraction_agent.py]  : [data_extraction_agent_run]
      (the variant imported by [app.py]), with its inner helper
      [ensure_list_of_strings];
    - [src/agents/llm_connector.py]          : [_call_llm];
    - [src/agents/analysis_agent.py]         : [analysis_agent_run];
    - [src/agents/proposal_generation_agent.py] : [proposal_generation_agent_run].

    Python values produced by [json.loads] are modelled by [json]; a Python
    [dict] is an association list with unique keys, where assignment to an
    existing key updates it in place and assignment to a new key appends it
    (Python's insertion order).  JSON numbers are modelled as integers
    (floating point is not modelled). *)

From Stdlib Require Import String Ascii List ZArith Bool Lia.
Import ListNotations.
Open Scope string_scope.
Set Warnings "-register-all,-abstract-large-number".

(* ------------------------------------------------------------------ *)
(** ** Python / JSON values *)

Inductive json : Type :=
| JNull : json
| JBool : bool -> json
| JNum : Z -> json
| JStr : string -> json
| JArr : list json -> json
| JObj : list (string * json) -> json.

Definition dict := list (string * json).

(** [d.get(k)]: [None] when the key is absent. *)
Fixpoint dict_get (k : string) (d : dict) : option json :=
  match d with
  | [] => None
  | (k', v) :: rest => if String.eqb k k' then Some v else dict_get k rest
  end.

(** [k in d] *)
Definition dict_has (k : string) (d : dict) : bool :=
  match dict_get k d with Some _ => true | None => false end.

(** [d[k] = v]: in place when [k] is present, appended otherwise. *)
Fixpoint dict_set (k : string) (v : json) (d : dict) : dict :=
  match d with
  | [] => [(k, v)]
  | (k', v') :: rest =>
      if String.eqb k k' then (k', v) :: rest else (k', v') :: dict_set k v rest
  end.

(** Python truthiness of a value. *)
Definition truthy (v : json) : bool :=
  match v with
  | JNull => false
  | JBool b => b
  | JNum z => negb (Z.eqb z 0)
  | JStr s => negb (String.eqb s "")
  | JArr l => match l with [] => false | _ => true end
  | JObj o => match o with [] => false | _ => true end
  end.

(** Truthiness of the result of [d.get(k)] ([None] is falsy). *)
Definition truthy_opt (o : option json) : bool :=
  match o with Some v => truthy v | None => false end.

(** [str.lower()] on the ASCII range. *)
Definition lower_char (c : ascii) : ascii :=
  let n := nat_of_ascii c in
  if (65 <=? n)%nat && (n <=? 90)%nat then ascii_of_nat (n + 32)%nat else c.

Fixpoint py_lower (s : string) : string :=
  match s with
  | EmptyString => EmptyString
  | String c rest => String (lower_char c) (py_lower rest)
  end.

(** [s.lower() == "n/a"] *)
Definition is_na (s : string) : bool := String.eqb (py_lower s) "n/a".

(* ------------------------------------------------------------------ *)
(** ** [data_extraction_agent_run]: post-deserialisation cleanup *)

(** Element filter of [ensure_list_of_strings]:
    [isinstance(item, str) and item.lower() != "n/a"]. *)
Definition keep_string_item (item : json) : bool :=
  match item with
  | JStr s => negb (is_na s)
  | _ => false
  end.

(** [ensure_list_of_strings(field_value)], applied to [d.get(key)]. *)
Definition ensure_list_of_strings (field_value : option json) : json :=
  match field_value with
  | Some (JArr l) => JArr (filter keep_string_item l)
  | Some (JStr s) => if is_na s then JArr [] else JArr []
  | _ => JArr []
  end.

Definition list_keys : list string :=
  ["objectives"; "scope_of_work"; "out_of_scope"; "technical_requirements";
   "key_constraints"; "stakeholders"; "timeline_overview"].

(** [for key in [...]: parsed_data[key] = ensure_list_of_strings(parsed_data.get(key))] *)
Fixpoint clean_list_fields (keys : list string) (d : dict) : dict :=
  match keys with
  | [] => d
  | key :: rest =>
      clean_list_fields rest (dict_set key (ensure_list_of_strings (dict_get key d)) d)
  end.

Definition not_detailed : string := "Not detailed by AI".

(** One iteration of the deliverables loop: [Some] is an append. *)
Definition clean_deliverable (item : json) : option json :=
  match item with
  | JObj o =>
      if dict_has "name" o && dict_has "description" o then Some item else None
  | JStr s =>
      if negb (is_na s)
      then Some (JObj [("name", JStr s); ("description", JStr not_detailed)])
      else None
  | _ => None
  end.

Fixpoint clean_deliverable_items (items : list json) : list json :=
  match items with
  | [] => []
  | item :: rest =>
      match clean_deliverable item with
      | Some c => c :: clean_deliverable_items rest
      | None => clean_deliverable_items rest
      end
  end.

(** [cleaned_deliverables] computed from [parsed_data.get("deliverables")]. *)
Definition cleaned_deliverables (raw_deliverables : option json) : list json :=
  match raw_deliverables with
  | Some (JArr items) => clean_deliverable_items items
  | _ => []
  end.

(** The guard of the scalar loop:
    [not v or (isinstance(v, str) and v.lower() == "n/a")]. *)
Definition scalar_needs_sentinel (v : option json) : bool :=
  negb (truthy_opt v)
  || match v with Some (JStr s) => is_na s | _ => false end.

Fixpoint clean_scalar_fields (keys : list string) (d : dict) : dict :=
  match keys with
  | [] => d
  | key :: rest =>
      clean_scalar_fields rest
        (if scalar_needs_sentinel (dict_get key d)
         then dict_set key (JStr "N/A") d else d)
  end.

Definition scalar_keys : list string := ["project_name"; "client_name"].

(** The cleanup applied to [parsed_data] when it is a dict. *)
Definition normalize (parsed_data : dict) : dict :=
  let d1 := clean_list_fields list_keys parsed_data in
  let d2 := dict_set "deliverables"
              (JArr (cleaned_deliverables (dict_get "deliverables" d1))) d1 in
  clean_scalar_fields scalar_keys d2.

(* ------------------------------------------------------------------ *)
(** ** Exceptions and the try/except blocks *)

(** A raised Python exception: its class name, [str(e)], and whether the
    class derives from [Exception] (false for [KeyboardInterrupt],
    [SystemExit] and the other bare [BaseException] subclasses). *)
Record exn : Type := mk_exn {
  exc_type : string;
  exc_str : string;
  is_exception : bool
}.

Inductive outcome (A : Type) : Type :=
| Ok : A -> outcome A
| Raised : exn -> outcome A.
Arguments Ok {A} _.
Arguments Raised {A} _.

Definition value_error (msg : string) : exn := mk_exn "ValueError" msg true.

Definition py_type_name (v : json) : string :=
  match v with
  | JNull => "NoneType"
  | JBool _ => "bool"
  | JNum _ => "int"
  | JStr _ => "str"
  | JArr _ => "list"
  | JObj _ => "dict"
  end.

(** [v.get] on a value that has no [get] method. *)
Definition attribute_error_get (v : json) : exn :=
  mk_exn "AttributeError" ("'" ++ py_type_name v ++ "' object has no attribute 'get'") true.

(** The body of the [try] block after [json.loads] succeeded: every
    statement starts with [parsed_data.get(...)], so a decoded value that is
    not a dict raises [AttributeError] at the first one. *)
Definition normalize_value (parsed_data : json) : outcome dict :=
  match parsed_data with
  | JObj d => Ok (normalize d)
  | other => Raised (attribute_error_get other)
  end.

Definition error_dict (msg : string) : dict := [("error", JStr msg)].

(** [response_content[:500]] *)
Definition excerpt (s : string) : string := substring 0 500 s.

Definition decode_failure_prefix : string :=
  "Failed to parse LLM response as JSON. Raw LLM output: ".

Definition unexpected_prefix : string := "An unexpected error occurred: ".

(** The [try: ... except json.JSONDecodeError ... except Exception ...]
    block of [data_extraction_agent_run].  [loads] is [json.loads]:
    [None] is a [JSONDecodeError]. *)
Definition after_response (loads : string -> option json) (response_content : string) : dict :=
  match loads response_content with
  | None => error_dict (decode_failure_prefix ++ excerpt response_content)
  | Some parsed_data =>
      match normalize_value parsed_data with
      | Ok d => d
      | Raised e => error_dict (unexpected_prefix ++ exc_str e)
      end
  end.

(* ------------------------------------------------------------------ *)
(** ** Agents as one-step interactions with the generative backend *)

Record message : Type := mk_message { role : string; content : string }.

(** An agent either returns at once, or calls [_call_llm] with a request and
    a response format and continues with the returned string. *)
Inductive agent_step (Req A : Type) : Type :=
| Done : A -> agent_step Req A
| CallLLM : Req -> string -> (string -> A) -> agent_step Req A.
Arguments Done {Req A} _.
Arguments CallLLM {Req A} _ _ _.

Definition nl : string := String (ascii_of_nat 10) EmptyString.
Definition dq : string := String (ascii_of_nat 34) EmptyString.

Definition extraction_system_instruction : string :=
  "You are an expert AI assistant specialized in analyzing Scope of Work (SOW) documents. Your goal is to extract precise and comprehensive information into a structured JSON object. Adhere strictly to the requested schema and data types.".

(** The user prompt is a fixed template around the truncated SOW text; the
    template's wording (schema description and guidelines) is kept as two
    opaque halves. *)
Definition extraction_prompt_head : string :=
  nl ++ "    Read the following Scope of Work (SOW) text carefully and extract ALL the key information into a structured JSON object." ++ nl.
Definition extraction_prompt_tail : string :=
  nl ++ "    Return only the JSON object." ++ nl.

Definition extraction_messages (sow_text_limited : string) : list message :=
  [mk_message "system" extraction_system_instruction;
   mk_message "user" (extraction_prompt_head ++ sow_text_limited ++ extraction_prompt_tail)].

Definition no_text_message : string := "No SOW text provided for extraction.".

(** [data_extraction_agent_run(sow_text)] *)
Definition data_extraction_agent_run (loads : string -> option json) (sow_text : string)
  : agent_step (list message) dict :=
  if String.eqb sow_text "" then Done (error_dict no_text_message)
  else
    let sow_text_limited := substring 0 15000 sow_text in
    CallLLM (extraction_messages sow_text_limited) "json_object" (after_response loads).

(** How [app.py] classifies the returned dict
    ([if sow_structured_data and not sow_structured_data.get("error")]);
    a failure displays [sow_structured_data.get('error', 'Unknown error.')]. *)
Inductive extraction_outcome : Type :=
| Success : dict -> extraction_outcome
| Failure : json -> extraction_outcome.

Definition classify (d : dict) : extraction_outcome :=
  if truthy (JObj d) && negb (truthy_opt (dict_get "error" d)) then Success d
  else Failure (match dict_get "error" d with Some v => v | None => JStr "Unknown error." end).

(* ------------------------------------------------------------------ *)
(** ** [_call_llm] ([src/agents/llm_connector.py]) *)

(** [json.dumps] of a string (default [ensure_ascii=True]). *)
Definition hex_digit (n : nat) : string :=
  String (ascii_of_nat (if (n <? 10)%nat then 48 + n else 87 + n)%nat) EmptyString.

Definition escape_char (c : ascii) : string :=
  let n := nat_of_ascii c in
  if (n =? 34)%nat then "\" ++ dq
  else if (n =? 92)%nat then "\\"
  else if (n =? 10)%nat then "\n"
  else if (n =? 13)%nat then "\r"
  else if (n =? 9)%nat then "\t"
  else if (n =? 8)%nat then "\b"
  else if (n =? 12)%nat then "\f"
  else if (n <? 32)%nat || (126 <? n)%nat
  then "\u00" ++ hex_digit (n / 16) ++ hex_digit (n mod 16)
  else String c EmptyString.

Fixpoint escape_string (s : string) : string :=
  match s with
  | EmptyString => EmptyString
  | String c rest => escape_char c ++ escape_string rest
  end.

Definition dumps_string (s : string) : string := dq ++ escape_string s ++ dq.

(** [json.dumps({"error": str(e)})] *)
Definition dumps_error_object (msg : string) : string :=
  "{" ++ dumps_string "error" ++ ": " ++ dumps_string msg ++ "}".

(** The global client handles: whether [openai_client] / [gemini_model]
    have been initialised. *)
Record llm_clients : Type := mk_clients { openai_client : bool; gemini_model : bool }.

(** Gemini request: the system and user contents joined into one user part. *)
Fixpoint gemini_user_content (messages : list message) : string :=
  match messages with
  | [] => ""
  | m :: rest =>
      (if String.eqb (role m) "system" then content m ++ nl ++ nl
       else if String.eqb (role m) "user" then content m else "")
      ++ gemini_user_content rest
  end.

Definition gemini_messages (messages : list message) : list message :=
  [mk_message "user" (gemini_user_content messages)].

Section CallLLM.

(** The providers' SDK calls, an external collaborator: given the provider
    name, the request and the response format, they return the response
    text or raise. *)
Variable provider_call : string -> list message -> string -> outcome string.

(** The body of the [try] block of [_call_llm]. *)
Definition call_llm_body (clients : llm_clients) (messages : list message)
  (response_format llm_choice : string) : outcome string :=
  if String.eqb llm_choice "openai" then
    if negb (openai_client clients)
    then Raised (value_error "OpenAI client not initialized. Call initialize_llm_clients first.")
    else provider_call "openai" messages response_format
  else if String.eqb llm_choice "gemini" then
    if negb (gemini_model clients)
    then Raised (value_error "Gemini model not initialized. Call initialize_llm_clients first.")
    else provider_call "gemini" (gemini_messages messages) response_format
  else Raised (value_error ("LLM choice '" ++ llm_choice ++ "' is not supported.")).

(** [_call_llm(messages, response_format, llm_choice)]: [except Exception]
    turns the raised exception into a returned string; an exception outside
    [Exception] is not caught. *)
Definition call_llm (clients : llm_clients) (messages : list message)
  (response_format llm_choice : string) : outcome string :=
  match call_llm_body clients messages response_format llm_choice with
  | Ok s => Ok s
  | Raised e =>
      if is_exception e then
        Ok (if String.eqb response_format "json_object"
            then dumps_error_object (exc_str e)
            else "Error: " ++ exc_str e)
      else Raised e
  end.

End CallLLM.

(* ------------------------------------------------------------------ *)
(** ** Derived-artifact generators *)

(** The request the summary generator sends to [_call_llm] once past its
    guard.  Its wording is a fixed template around [json.dumps] of the
    structured data (which does not raise on a dict decoded from JSON); the
    model keeps the data the prompt is built from.  The proposal generator,
    whose prompt rendering may raise, is embedded further down, after its
    rendering helpers. *)
Inductive generator_request : Type :=
| SummaryRequest : dict -> generator_request.

Definition summary_refusal : string :=
  "Cannot summarize: Invalid or missing SOW structured data.".
Definition proposal_refusal : string :=
  "Cannot draft proposal: Invalid or missing SOW structured data.".

(** [analysis_agent_run(sow_structured_data)]; [None] is Python [None]. *)
Definition analysis_agent_run (sow_structured_data : option dict)
  : agent_step generator_request string :=
  match sow_structured_data with
  | None => Done summary_refusal
  | Some d =>
      if negb (truthy (JObj d)) || truthy_opt (dict_get "error" d)
      then Done summary_refusal
      else CallLLM (SummaryRequest d) "text" (fun r => r)
  end.

(** A generator input that represents a failed or absent extraction:
    absent, empty, or carrying a (truthy) [error] entry. *)
Definition failed_input (sow_structured_data : option dict) : bool :=
  match sow_structured_data with
  | None => true
  | Some d => negb (truthy (JObj d)) || truthy_opt (dict_get "error" d)
  end.

Definition calls_backend {Req A} (s : agent_step Req A) : bool :=
  match s with Done _ => false | CallLLM _ _ _ => true end.

(* ------------------------------------------------------------------ *)
(** ** A [json.loads] for concrete inputs

    The theorems about [data_extraction_agent_run] hold for every decoder
    [loads]; this one is used to run them on concrete backend strings.  It
    accepts the JSON grammar restricted to integer numbers and to the
    backslash escapes of a quote, a backslash, a slash, n, t and r; duplicate keys update the
    first occurrence, as [json.loads] building a dict does. *)
Definition is_ws (c : ascii) : bool :=
  let n := nat_of_ascii c in (n =? 32)%nat || (n =? 10)%nat || (n =? 13)%nat || (n =? 9)%nat.

Fixpoint skip_ws (s : string) : string :=
  match s with
  | String c rest => if is_ws c then skip_ws rest else s
  | EmptyString => s
  end.

Definition char_is (c : ascii) (n : nat) : bool := Nat.eqb (nat_of_ascii c) n.

(** The body of a string literal, after its opening quote. *)
Fixpoint parse_string_body (s : string) : option (string * string) :=
  match s with
  | EmptyString => None
  | String c rest =>
      if char_is c 34 then Some (EmptyString, rest)
      else if char_is c 92 then
        match rest with
        | String e rest' =>
            let decoded :=
              if char_is e 110 then Some (ascii_of_nat 10)
              else if char_is e 116 then Some (ascii_of_nat 9)
              else if char_is e 114 then Some (ascii_of_nat 13)
              else if char_is e 34 || char_is e 92 || char_is e 47 then Some e
              else None in
            match decoded, parse_string_body rest' with
            | Some d, Some (body, r) => Some (String d body, r)
            | _, _ => None
            end
        | EmptyString => None
        end
      else if (nat_of_ascii c <? 32)%nat then None
      else match parse_string_body rest with
           | Some (body, r) => Some (String c body, r)
           | None => None
           end
  end.

Fixpoint parse_digits (s : string) (acc : Z) (seen : bool) : option (Z * string) :=
  match s with
  | String c rest =>
      let n := nat_of_ascii c in
      if (48 <=? n)%nat && (n <=? 57)%nat
      then parse_digits rest (acc * 10 + Z.of_nat (n - 48))%Z true
      else if seen then Some (acc, s) else None
  | EmptyString => if seen then Some (acc, s) else None
  end.

Definition parse_number (s : string) : option (Z * string) :=
  match s with
  | String c rest =>
      if char_is c 45 then
        match parse_digits rest 0 false with
        | Some (z, r) => Some (Z.opp z, r)
        | None => None
        end
      else parse_digits s 0 false
  | EmptyString => None
  end.

Fixpoint parse_value (fuel : nat) (s : string) : option (json * string) :=
  match fuel with
  | O => None
  | S n =>
      let s := skip_ws s in
      if String.prefix "null" s then Some (JNull, substring 4 (String.length s) s)
      else if String.prefix "true" s then Some (JBool true, substring 4 (String.length s) s)
      else if String.prefix "false" s then Some (JBool false, substring 5 (String.length s) s)
      else
      match s with
      | EmptyString => None
      | String c rest =>
          if char_is c 34 then
            match parse_string_body rest with
            | Some (str, r) => Some (JStr str, r)
            | None => None
            end
          else if char_is c 91 then
            (* array: elements separated by commas, closed by ']' *)
            let fix elems (m : nat) (s : string) (acc : list json) :=
              match m with
              | O => None
              | S m' =>
                  match parse_value n s with
                  | None => None
                  | Some (v, r) =>
                      match skip_ws r with
                      | String d r' =>
                          if char_is d 44 then elems m' r' (v :: acc)
                          else if char_is d 93 then Some (JArr (rev (v :: acc)), r')
                          else None
                      | EmptyString => None
                      end
                  end
              end in
            match skip_ws rest with
            | String d r' => if char_is d 93 then Some (JArr [], r') else elems n rest []
            | EmptyString => None
            end
          else if char_is c 123 then
            (* object: "key": value members separated by commas, closed by '}' *)
            let fix members (m : nat) (s : string) (acc : dict) :=
              match m with
              | O => None
              | S m' =>
                  match skip_ws s with
                  | String q r0 =>
                      if negb (char_is q 34) then None else
                      match parse_string_body r0 with
                      | None => None
                      | Some (k, r1) =>
                          match skip_ws r1 with
                          | String colon r2 =>
                              if negb (char_is colon 58) then None else
                              match parse_value n r2 with
                              | None => None
                              | Some (v, r3) =>
                                  match skip_ws r3 with
                                  | String d r4 =>
                                      if char_is d 44 then members m' r4 (dict_set k v acc)
                                      else if char_is d 125 then Some (JObj (dict_set k v acc), r4)
                                      else None
                                  | EmptyString => None
                                  end
                              end
                          | EmptyString => None
                          end
                      end
                  | EmptyString => None
                  end
              end in
            match skip_ws rest with
            | String d r' => if char_is d 125 then Some (JObj [], r') else members n rest []
            | EmptyString => None
            end
          else
            match parse_number s with
            | Some (z, r) => Some (JNum z, r)
            | None => None
            end
      end
  end.

(** [json.loads(s)]: one value, then only whitespace. *)
Definition json_loads (s : string) : option json :=
  match parse_value (S (String.length s)) s with
  | Some (v, r) => if String.eqb (skip_ws r) "" then Some v else None
  | None => None
  end.

(* ------------------------------------------------------------------ *)
(** ** Rendering helpers of [proposal_generation_agent_run] *)

Definition type_error (msg : string) : exn := mk_exn "TypeError" msg true.

Fixpoint pos_digits (fuel : nat) (p : positive) (acc : string) : string :=
  match fuel with
  | O => acc
  | S f =>
      let '(q, r) := N.div_eucl (Npos p) 10 in
      let acc' := String (ascii_of_N (48 + r)) acc in
      match q with
      | N0 => acc'
      | Npos q' => pos_digits f q' acc'
      end
  end.

(** [str(z)] for an integer. *)
Definition z_to_string (z : Z) : string :=
  match z with
  | Z0 => "0"
  | Zpos p => pos_digits (Pos.size_nat p) p ""
  | Zneg p => "-" ++ pos_digits (Pos.size_nat p) p ""
  end.

Definition hex2 (n : nat) : string := hex_digit (n / 16) ++ hex_digit (n mod 16).

(** [str.isprintable()] for the code points 0-255. *)
Definition printable_code (n : nat) : bool :=
  negb ((n <? 32)%nat || ((127 <=? n)%nat && (n <=? 160)%nat) || (n =? 173)%nat).

Fixpoint string_has (c : nat) (s : string) : bool :=
  match s with
  | EmptyString => false
  | String a rest => (nat_of_ascii a =? c)%nat || string_has c rest
  end.

(** [repr(s)] for a string: single quotes unless the string holds a single
    quote and no double quote. *)
Definition repr_string (s : string) : string :=
  let quote := if string_has 39 s && negb (string_has 34 s) then 34%nat else 39%nat in
  let q := String (ascii_of_nat quote) EmptyString in
  let fix esc (s : string) : string :=
    match s with
    | EmptyString => EmptyString
    | String c rest =>
        let n := nat_of_ascii c in
        (if (n =? quote)%nat || (n =? 92)%nat then "\" ++ String c EmptyString
         else if (n =? 9)%nat then "\t"
         else if (n =? 10)%nat then "\n"
         else if (n =? 13)%nat then "\r"
         else if printable_code n then String c EmptyString
         else "\x" ++ hex2 n)
        ++ esc rest
    end in
  q ++ esc s ++ q.

(** [repr(v)] of a decoded JSON value. *)
Fixpoint py_repr (v : json) : string :=
  match v with
  | JNull => "None"
  | JBool true => "True"
  | JBool false => "False"
  | JNum z => z_to_string z
  | JStr s => repr_string s
  | JArr l =>
      "[" ++ String.concat ", " (map py_repr l) ++ "]"
  | JObj o =>
      "{" ++ String.concat ", "
               (map (fun kv => repr_string (fst kv) ++ ": " ++ py_repr (snd kv)) o)
      ++ "}"
  end.

(** [str(v)], as an f-string formats it. *)
Definition py_str (v : json) : string :=
  match v with
  | JStr s => s
  | other => py_repr other
  end.

Definition chars (s : string) : list string :=
  map (fun c => String c EmptyString) (list_ascii_of_string s).

Fixpoint join_items (sep : string) (i : nat) (items : list json) : outcome (list string) :=
  match items with
  | [] => Ok []
  | JStr s :: rest =>
      match join_items sep (S i) rest with
      | Ok l => Ok (s :: l)
      | Raised e => Raised e
      end
  | other :: _ =>
      Raised (type_error ("sequence item " ++ z_to_string (Z.of_nat i)
                          ++ ": expected str instance, " ++ py_type_name other ++ " found"))
  end.

(** [sep.join(v)]: iterating a list, the characters of a string or the
    keys of a dict; any other value is not iterable. *)
Definition py_join (sep : string) (v : json) : outcome string :=
  match v with
  | JArr l =>
      match join_items sep 0 l with
      | Ok strs => Ok (String.concat sep strs)
      | Raised e => Raised e
      end
  | JStr s => Ok (String.concat sep (chars s))
  | JObj o => Ok (String.concat sep (map fst o))
  | _ => Raised (type_error ("can only join an iterable"))
  end.

Definition bullet : string := nl ++ "- ".

(** [_format_list_for_prompt(items, default_message)], applied to [d.get(key)]. *)
Definition format_list_for_prompt (items : option json) (default_message : string)
  : outcome string :=
  if negb (truthy_opt items) then Ok default_message
  else match items with
       | Some v =>
           match py_join bullet v with
           | Ok s => Ok (bullet ++ s)
           | Raised e => Raised e
           end
       | None => Ok default_message
       end.

(** [x if items else fallback] around [sep.join(items)]. *)
Definition join_or (sep : string) (items : option json) (fallback : string) : outcome string :=
  if negb (truthy_opt items) then Ok fallback
  else match items with
       | Some v => py_join sep v
       | None => Ok fallback
       end.

(** [d.get(key, default)] *)
Definition dict_get_default (k : string) (default : json) (d : dict) : json :=
  match dict_get k d with Some v => v | None => default end.

(** One iteration of the deliverables loop of the proposal generator. *)
Definition deliverable_line (x : json) : option string :=
  match x with
  | JObj o =>
      if dict_has "name" o && dict_has "description" o
      then Some ("- **" ++ py_str (dict_get_default "name" JNull o) ++ "**: "
                 ++ py_str (dict_get_default "description" JNull o))
      else None
  | JStr s => Some ("- **" ++ s ++ "**: Not detailed by AI")
  | _ => None
  end.

(** [for d in sow_structured_data["deliverables"]: ...], run only when the
    value is truthy; iterating a string yields its characters, iterating a
    dict its keys, anything else raises. *)
Definition deliverables_builder (v : json) : outcome (list string) :=
  match v with
  | JArr l => Ok (flat_map (fun x => match deliverable_line x with
                                     | Some s => [s] | None => [] end) l)
  | JStr s => Ok (flat_map (fun c => match deliverable_line (JStr c) with
                                     | Some s => [s] | None => [] end) (chars s))
  | JObj o => Ok (map (fun kv => "- **" ++ fst kv ++ "**: Not detailed by AI") o)
  | other => Raised (type_error ("'" ++ py_type_name other ++ "' object is not iterable"))
  end.

Definition deliverables_fallback : string := "- Specific deliverables to be detailed.".

Definition deliverables_fragment (raw : option json) : outcome string :=
  let built := if truthy_opt raw
               then match raw with Some v => deliverables_builder v | None => Ok [] end
               else Ok [] in
  match built with
  | Raised e => Raised e
  | Ok [] => Ok deliverables_fallback
  | Ok lines => Ok (nl ++ String.concat nl lines)
  end.

(** The values [proposal_generation_agent_run] interpolates into its
    prompt, computed in the order of the source. *)
Record proposal_fragments : Type := mk_fragments {
  projectName : json;
  clientName : json;
  objectives_fragment : string;
  scope_fragment : string;
  out_of_scope_fragment : string;
  deliverables_text : string;
  technical_requirements_str : string;
  key_constraints_fragment : string;
  stakeholders_str : string;
  timeline_str : string
}.

Definition objectives_fallback : string := "To be defined based on client needs.".
Definition scope_fallback : string := "Detailed scope will be outlined upon further analysis.".
Definition out_of_scope_fallback : string :=
  "Any items not explicitly included in the 'Scope of Work' are considered out of scope.".
Definition technical_fallback : string := "relevant technologies and industry best practices".
Definition constraints_fallback : string := "Standard project constraints apply.".
Definition stakeholders_fallback : string := "key client and vendor personnel".
Definition timeline_fallback : string :=
  "A detailed project timeline will be developed in collaboration with the client.".

Notation "'let!' x := m 'in' k" :=
  (match m with Ok x => k | Raised e => Raised e end)
  (at level 200, x name, m at level 100, k at level 200).

Definition compute_proposal_fragments (d : dict) : outcome proposal_fragments :=
  let projectName := dict_get_default "project_name" (JStr "the Project") d in
  let clientName := dict_get_default "client_name" (JStr "the Client") d in
  let! objectives := format_list_for_prompt (dict_get "objectives" d) objectives_fallback in
  let! scopeOfWork := format_list_for_prompt (dict_get "scope_of_work" d) scope_fallback in
  let! outOfScope := format_list_for_prompt (dict_get "out_of_scope" d) out_of_scope_fallback in
  let! deliverables := deliverables_fragment (dict_get "deliverables" d) in
  let! technical := join_or ", " (dict_get "technical_requirements" d) technical_fallback in
  let! keyConstraints := format_list_for_prompt (dict_get "key_constraints" d) constraints_fallback in
  let! stakeholders := join_or ", " (dict_get "stakeholders" d) stakeholders_fallback in
  let! timeline := join_or " " (dict_get "timeline_overview" d) timeline_fallback in
  Ok (mk_fragments projectName clientName objectives scopeOfWork outOfScope deliverables
        technical keyConstraints stakeholders timeline).

(** [proposal_generation_agent_run(sow_structured_data)]: past the guard,
    the prompt fragments are rendered, and an exception of the rendering
    propagates to the caller before any backend call; the prompt is the
    fixed template around the fragments (and the JSON dump of the data). *)
Definition proposal_generation_agent_run (sow_structured_data : option dict)
  : outcome (agent_step (dict * proposal_fragments) string) :=
  match sow_structured_data with
  | None => Ok (Done proposal_refusal)
  | Some d =>
      if negb (truthy (JObj d)) || truthy_opt (dict_get "error" d)
      then Ok (Done proposal_refusal)
      else match compute_proposal_fragments d with
           | Ok f => Ok (CallLLM (d, f) "text" (fun r => r))
           | Raised e => Raised e
           end
  end.

(* ------------------------------------------------------------------ *)
(** ** [initialize_llm_clients] ([src/agents/llm_connector.py]) *)

(** [os.getenv] is [env]; the client constructors ([OpenAI(api_key=...)],
    [genai.configure] and [genai.GenerativeModel]) are taken not to raise. *)
Definition initialize_llm_clients (env : string -> option string) (llm_choice : string)
  (clients : llm_clients) : outcome llm_clients :=
  if String.eqb llm_choice "openai" then
    if truthy_opt (option_map JStr (env "OPENAI_API_KEY"))
    then Ok (mk_clients true (gemini_model clients))
    else Raised (value_error "OpenAI API Key not found. Set OPENAI_API_KEY in .env.")
  else if String.eqb llm_choice "gemini" then
    if truthy_opt (option_map JStr (env "GOOGLE_API_KEY"))
    then Ok (mk_clients (openai_client clients) true)
    else Raised (value_error "Google Gemini API Key not found. Set GOOGLE_API_KEY in .env.")
  else Raised (value_error ("Invalid LLM_CHOICE: '" ++ llm_choice ++ "'. Must be 'openai' or 'gemini'.")).

(* ------------------------------------------------------------------ *)
(** ** Text extraction ([src/utils.py]) *)

(** [extract_text_from_docx]: [Document(file_buffer)] yields the paragraph
    texts or raises. *)
Definition extract_text_from_docx (document : outcome (list string)) : outcome string :=
  match document with
  | Ok paragraphs => Ok (String.concat "" (map (fun t => t ++ nl) paragraphs))
  | Raised e => if is_exception e then Ok "" else Raised e
  end.

(** The page loop of [extract_text_from_pdf]: each [page.extract_text()]
    returns a string, [None], or raises. *)
Fixpoint pdf_pages_text (pages : list (outcome (option string))) (text : string)
  : outcome string :=
  match pages with
  | [] => Ok text
  | Ok t :: rest =>
      pdf_pages_text rest
        (text ++ match t with Some s => if String.eqb s "" then "" else s | None => "" end)
  | Raised e :: _ => Raised e
  end.

(** [extract_text_from_pdf]: [PdfReader(file_buffer)] yields the pages or raises. *)
Definition extract_text_from_pdf (reader : outcome (list (outcome (option string))))
  : outcome string :=
  match match reader with
        | Ok pages => pdf_pages_text pages ""
        | Raised e => Raised e
        end with
  | Ok text => Ok text
  | Raised e => if is_exception e then Ok "" else Raised e
  end.

(* ------------------------------------------------------------------ *)
(** ** The cleanup of [src/llm_agents.py]

    The same list and deliverables passes; the scalar check is
    [not v or v.lower() == "n/a"], without the [isinstance] guard, so a
    truthy non-string raises [AttributeError]. *)

Definition attribute_error_lower (v : json) : exn :=
  mk_exn "AttributeError" ("'" ++ py_type_name v ++ "' object has no attribute 'lower'") true.

Definition clean_scalar_field_v0 (key : string) (d : dict) : outcome dict :=
  match dict_get key d with
  | None => Ok (dict_set key (JStr "N/A") d)
  | Some v =>
      if negb (truthy v) then Ok (dict_set key (JStr "N/A") d)
      else match v with
           | JStr s => if is_na s then Ok (dict_set key (JStr "N/A") d) else Ok d
           | other => Raised (attribute_error_lower other)
           end
  end.

Definition normalize_v0 (parsed_data : dict) : outcome dict :=
  let d1 := clean_list_fields list_keys parsed_data in
  let d2 := dict_set "deliverables"
              (JArr (cleaned_deliverables (dict_get "deliverables" d1))) d1 in
  let! d3 := clean_scalar_field_v0 "project_name" d2 in
  clean_scalar_field_v0 "client_name" d3.

Definition normalize_value_v0 (parsed_data : json) : outcome dict :=
  match parsed_data with
  | JObj d => normalize_v0 d
  | other => Raised (attribute_error_get other)
  end.

(** The [try] block of [data_extraction_agent_run] in [src/llm_agents.py]. *)
Definition after_response_v0 (loads : string -> option json) (response_content : string) : dict :=
  match loads response_content with
  | None => error_dict (decode_failure_prefix ++ excerpt response_content)
  | Some parsed_data =>
      match normalize_value_v0 parsed_data with
      | Ok d => d
      | Raised e => error_dict (unexpected_prefix ++ exc_str e)
      end
  end.

(* ------------------------------------------------------------------ *)
(** ** Running an agent step against [_call_llm] *)

(** An agent's backend call goes through [_call_llm] with the configured
    choice; an exception [_call_llm] lets through propagates. *)
Definition run_agent {A : Type}
  (provider_call : string -> list message -> string -> outcome string)
  (clients : llm_clients) (llm_choice : string)
  (step : agent_step (list message) A) : outcome A :=
  match step with
  | Done a => Ok a
  | CallLLM messages response_format k =>
      match call_llm provider_call clients messages response_format llm_choice with
      | Ok response => Ok (k response)
      | Raised e => Raised e
      end
  end.

(* ------------------------------------------------------------------ *)
(** ** Dict lemmas *)

Lemma dict_get_set (k k' : string) (v : json) (d : dict) :
  dict_get k (dict_set k' v d) = if String.eqb k k' then Some v else dict_get k d.
Proof.
  induction d as [|[k0 v0] rest IH]; simpl.
  - destruct (String.eqb k k'); reflexivity.
  - destruct (String.eqb k' k0) eqn:E1.
    + apply String.eqb_eq in E1; subst k0. simpl.
      destruct (String.eqb k k'); reflexivity.
    + simpl. rewrite IH.
      destruct (String.eqb k k0) eqn:E2; [|reflexivity].
      apply String.eqb_eq in E2; subst k0.
      destruct (String.eqb k k') eqn:E3; [|reflexivity].
      apply String.eqb_eq in E3; subst k'. rewrite String.eqb_refl in E1. discriminate.
Qed.

(** Assigning the value a key already has leaves the dict unchanged. *)
Lemma dict_set_same (k : string) (v : json) (d : dict) :
  dict_get k d = Some v -> dict_set k v d = d.
Proof.
  induction d as [|[k0 v0] rest IH]; simpl; [discriminate|].
  destruct (String.eqb k k0) eqn:E; intro H.
  - apply String.eqb_eq in E; subst k0. injection H as ->. reflexivity.
  - rewrite (IH H). reflexivity.
Qed.

Lemma clean_list_fields_other (keys : list string) (k : string) (d : dict) :
  ~ In k keys -> dict_get k (clean_list_fields keys d) = dict_get k d.
Proof.
  revert d; induction keys as [|key rest IH]; intros d Hn; simpl; [reflexivity|].
  rewrite IH by (intro; apply Hn; right; assumption).
  rewrite dict_get_set.
  destruct (String.eqb k key) eqn:E; [|reflexivity].
  apply String.eqb_eq in E; subst. exfalso; apply Hn; left; reflexivity.
Qed.

Lemma clean_list_fields_in (keys : list string) (k : string) (d : dict) :
  NoDup keys -> In k keys ->
  dict_get k (clean_list_fields keys d) = Some (ensure_list_of_strings (dict_get k d)).
Proof.
  revert d; induction keys as [|key rest IH]; intros d Hnd Hin; simpl; [contradiction|].
  inversion Hnd as [|? ? Hnotin Hnd']; subst.
  destruct (String.eqb k key) eqn:E.
  - apply String.eqb_eq in E; subst key.
    rewrite clean_list_fields_other by assumption.
    rewrite dict_get_set, String.eqb_refl. reflexivity.
  - destruct Hin as [Heq|Hin]; [subst; rewrite String.eqb_refl in E; discriminate|].
    rewrite IH by assumption.
    rewrite dict_get_set, E. reflexivity.
Qed.

Lemma clean_scalar_fields_other (keys : list string) (k : string) (d : dict) :
  ~ In k keys -> dict_get k (clean_scalar_fields keys d) = dict_get k d.
Proof.
  revert d; induction keys as [|key rest IH]; intros d Hn; simpl; [reflexivity|].
  rewrite IH by (intro; apply Hn; right; assumption).
  destruct (scalar_needs_sentinel (dict_get key d)); [|reflexivity].
  rewrite dict_get_set.
  destruct (String.eqb k key) eqn:E; [|reflexivity].
  apply String.eqb_eq in E; subst. exfalso; apply Hn; left; reflexivity.
Qed.

Lemma clean_scalar_fields_in (keys : list string) (k : string) (d : dict) :
  NoDup keys -> In k keys ->
  dict_get k (clean_scalar_fields keys d)
  = if scalar_needs_sentinel (dict_get k d) then Some (JStr "N/A") else dict_get k d.
Proof.
  revert d; induction keys as [|key rest IH]; intros d Hnd Hin; simpl; [contradiction|].
  inversion Hnd as [|? ? Hnotin Hnd']; subst.
  destruct (String.eqb k key) eqn:E.
  - apply String.eqb_eq in E; subst key.
    rewrite clean_scalar_fields_other by assumption.
    destruct (scalar_needs_sentinel (dict_get k d)); [|reflexivity].
    rewrite dict_get_set, String.eqb_refl. reflexivity.
  - destruct Hin as [Heq|Hin]; [subst; rewrite String.eqb_refl in E; discriminate|].
    rewrite IH by assumption.
    destruct (scalar_needs_sentinel (dict_get key d)); [|reflexivity].
    rewrite !dict_get_set, E. reflexivity.
Qed.

(** [list_keys] and [scalar_keys] are pairwise distinct and disjoint from
    each other and from ["deliverables"]. *)
Lemma list_keys_nodup : NoDup list_keys.
Proof. unfold list_keys; repeat constructor; simpl; intuition discriminate. Qed.

Lemma scalar_keys_nodup : NoDup scalar_keys.
Proof. unfold scalar_keys; repeat constructor; simpl; intuition discriminate. Qed.

Definition schema_keys : list string := list_keys ++ ["deliverables"] ++ scalar_keys.

(* ------------------------------------------------------------------ *)
(** ** Per-field behaviour of [normalize] *)

Lemma normalize_list_field (d : dict) (k : string) :
  In k list_keys ->
  dict_get k (normalize d) = Some (ensure_list_of_strings (dict_get k d)).
Proof.
  intro Hin. unfold normalize.
  rewrite clean_scalar_fields_other
    by (unfold list_keys, scalar_keys in *; simpl in *; intuition subst; discriminate).
  rewrite dict_get_set.
  destruct (String.eqb k "deliverables") eqn:E.
  - apply String.eqb_eq in E; subst; simpl in Hin; intuition discriminate.
  - apply clean_list_fields_in; [apply list_keys_nodup | assumption].
Qed.

Lemma normalize_deliverables (d : dict) :
  dict_get "deliverables" (normalize d)
  = Some (JArr (cleaned_deliverables (dict_get "deliverables" d))).
Proof.
  unfold normalize.
  rewrite clean_scalar_fields_other by (simpl; intuition discriminate).
  rewrite dict_get_set, String.eqb_refl.
  rewrite clean_list_fields_other by (simpl; intuition discriminate).
  reflexivity.
Qed.

Lemma normalize_scalar_field (d : dict) (k : string) :
  In k scalar_keys ->
  dict_get k (normalize d)
  = if scalar_needs_sentinel (dict_get k d) then Some (JStr "N/A") else dict_get k d.
Proof.
  intro Hin. unfold normalize.
  rewrite clean_scalar_fields_in by (apply scalar_keys_nodup || assumption).
  assert (Hk : String.eqb k "deliverables" = false /\ ~ In k list_keys).
  { destruct Hin as [<-|[<-|[]]]; (split; [reflexivity | simpl; intuition discriminate]). }
  destruct Hk as [Hk1 Hk2].
  rewrite dict_get_set, Hk1, clean_list_fields_other by assumption.
  reflexivity.
Qed.

Lemma normalize_other_field (d : dict) (k : string) :
  ~ In k schema_keys -> dict_get k (normalize d) = dict_get k d.
Proof.
  intro Hn. unfold normalize, schema_keys in *.
  rewrite clean_scalar_fields_other by (intro; apply Hn; apply in_or_app; right; right; assumption).
  rewrite dict_get_set.
  destruct (String.eqb k "deliverables") eqn:E.
  - apply String.eqb_eq in E; subst. exfalso; apply Hn; apply in_or_app; right; left; reflexivity.
  - apply clean_list_fields_other. intro; apply Hn; apply in_or_app; left; assumption.
Qed.

Lemma filter_keep_strings (l : list json) :
  exists l', filter keep_string_item l = map JStr l' /\ Forall (fun s => is_na s = false) l'.
Proof.
  induction l as [|x rest [l' [Heq Hall]]]; simpl.
  - exists []; split; [reflexivity | constructor].
  - destruct x as [| | | s | |]; simpl; try (exists l'; split; assumption).
    destruct (is_na s) eqn:E; simpl.
    + exists l'; split; assumption.
    + exists (s :: l'); simpl; rewrite Heq; split; [reflexivity | constructor; assumption].
Qed.

Lemma ensure_list_of_strings_shape (v : option json) :
  exists l, ensure_list_of_strings v = JArr (map JStr l) /\ Forall (fun s => is_na s = false) l.
Proof.
  destruct v as [[| | | s | l |]|]; simpl;
    try (exists []; split; [reflexivity | constructor]).
  - destruct (is_na s); exists []; split; (reflexivity || constructor).
  - destruct (filter_keep_strings l) as [l' [Heq Hall]].
    exists l'; rewrite Heq; split; [reflexivity | assumption].
Qed.

Definition deliverable_shaped (it : json) : Prop :=
  exists o, it = JObj o /\ dict_has "name" o = true /\ dict_has "description" o = true.

Lemma clean_deliverable_items_shaped (items : list json) :
  Forall deliverable_shaped (clean_deliverable_items items).
Proof.
  induction items as [|x rest IH]; simpl; [constructor|].
  destruct x as [| | | s | | o]; simpl; try assumption.
  - destruct (negb (is_na s)); [|assumption].
    constructor; [|assumption].
    exists [("name", JStr s); ("description", JStr not_detailed)]; repeat split.
  - destruct (dict_has "name" o) eqn:E1; destruct (dict_has "description" o) eqn:E2;
      simpl; try assumption.
    constructor; [exists o; repeat split; assumption | assumption].
Qed.

(** ** Claim C1 (amended)
    For every decoded JSON object the cleanup succeeds (no exception) and
    the returned dict has: each of the seven list fields as a list of
    strings none of which is case-insensitively "n/a"; "deliverables" as a
    list of objects each carrying "name" and "description" keys (with their
    raw values); "project_name" and "client_name" present and truthy,
    either the sentinel "N/A" or the raw value unchanged, which need not be
    a string. *)
Theorem normalize_total_shape (d : dict) :
  normalize_value (JObj d) = Ok (normalize d)
  /\ (forall k, In k list_keys ->
        exists l, dict_get k (normalize d) = Some (JArr (map JStr l))
                  /\ Forall (fun s => is_na s = false) l)
  /\ (exists items, dict_get "deliverables" (normalize d) = Some (JArr items)
                    /\ Forall deliverable_shaped items)
  /\ (forall k, In k scalar_keys ->
        exists v, dict_get k (normalize d) = Some v /\ truthy v = true
                  /\ (v = JStr "N/A" \/ dict_get k d = Some v)).
Proof.
  split; [reflexivity|]. split; [|split].
  - intros k Hk. rewrite normalize_list_field by assumption.
    destruct (ensure_list_of_strings_shape (dict_get k d)) as [l [Heq Hall]].
    exists l; rewrite Heq; split; [reflexivity | assumption].
  - rewrite normalize_deliverables.
    eexists; split; [reflexivity|].
    destruct (dict_get "deliverables" d) as [[| | | | items |]|]; simpl;
      try constructor.
    apply clean_deliverable_items_shaped.
  - intros k Hk. rewrite normalize_scalar_field by assumption.
    unfold scalar_needs_sentinel.
    destruct (dict_get k d) as [v|] eqn:E; simpl.
    + destruct (truthy v) eqn:Ht; simpl.
      * lazymatch goal with |- context [if ?c then _ else _] => destruct c end.
        -- eexists; split; [reflexivity | split; [reflexivity | left; reflexivity]].
        -- eexists; split; [reflexivity | split; [assumption | right; reflexivity]].
      * eexists; split; [reflexivity | split; [reflexivity | left; reflexivity]].
    + eexists; split; [reflexivity | split; [reflexivity | left; reflexivity]].
Qed.

Lemma normalize_total_shape_witness :
  In "objectives" list_keys /\ In "client_name" scalar_keys
  /\ normalize_value (JObj [("objectives", JStr "n/a"); ("client_name", JNum 7)])
     = Ok (normalize [("objectives", JStr "n/a"); ("client_name", JNum 7)]).
Proof.
  split; [simpl; auto|]. split; [simpl; auto|].
  apply (normalize_total_shape [("objectives", JStr "n/a"); ("client_name", JNum 7)]).
Defined.

(** Claim C1, counterexample: a raw "project_name" of 42 is truthy and not
    a string, so it is passed through unchanged and the field is not a
    string. *)
Lemma normalize_project_name_number :
  dict_get "project_name" (normalize [("project_name", JNum 42)]) = Some (JNum 42)
  /\ ~ (exists s, dict_get "project_name" (normalize [("project_name", JNum 42)])
                  = Some (JStr s)).
Proof.
  split; [reflexivity|]. intros [s H]. vm_compute in H. discriminate.
Qed.

(** ** Claim C3
    For each of the seven list fields, the output is: when the raw value is
    a list, exactly its string elements that are not case-insensitively
    "n/a", in their order and with their duplicates; for any other raw
    shape (a string such as "N/A", null, a number, an object, or absence),
    the empty list.  No output element is case-insensitively "n/a". *)
Theorem normalize_list_fields_clean (d : dict) (k : string) (Hk : In k list_keys) :
  dict_get k (normalize d)
  = Some (JArr (match dict_get k d with
                | Some (JArr l) =>
                    filter (fun item => match item with
                                        | JStr s => negb (is_na s)
                                        | _ => false
                                        end) l
                | _ => []
                end))
  /\ (forall items x, dict_get k (normalize d) = Some (JArr items) -> In x items ->
        exists s, x = JStr s /\ is_na s = false).
Proof.
  rewrite normalize_list_field by assumption.
  split.
  - destruct (dict_get k d) as [[| | | s | l |]|]; simpl; try reflexivity.
    destruct (is_na s); reflexivity.
  - intros items x Heq Hx. injection Heq as Heq.
    destruct (ensure_list_of_strings_shape (dict_get k d)) as [l [Hl Hall]].
    rewrite Hl in Heq. injection Heq as <-.
    apply in_map_iff in Hx. destruct Hx as [s [<- Hs]].
    exists s; split; [reflexivity|].
    rewrite Forall_forall in Hall. apply Hall; assumption.
Qed.

Lemma normalize_list_fields_clean_witness :
  In "objectives" list_keys
  /\ dict_get "objectives"
       (normalize [("objectives", JArr [JStr "Build API"; JStr "n/a"; JNum 3;
                                       JStr "Deploy"; JStr "Deploy"])])
     = Some (JArr [JStr "Build API"; JStr "Deploy"; JStr "Deploy"]).
Proof.
  split; [simpl; auto|].
  exact (proj1 (normalize_list_fields_clean
                  [("objectives", JArr [JStr "Build API"; JStr "n/a"; JNum 3;
                                        JStr "Deploy"; JStr "Deploy"])]
                  "objectives" (or_introl eq_refl))).
Defined.

(** ** Claim C4
    Deliverables: a raw list is mapped element by element, keeping an
    object that has both "name" and "description" keys unchanged, upgrading
    a string that is not case-insensitively "n/a" to
    {name: s, description: "Not detailed by AI"}, and dropping anything
    else; any other raw shape gives the empty list. *)
Theorem normalize_deliverables_spec (d : dict) :
  dict_get "deliverables" (normalize d)
  = Some (JArr (match dict_get "deliverables" d with
                | Some (JArr l) =>
                    flat_map (fun item =>
                      match item with
                      | JObj o =>
                          if dict_has "name" o && dict_has "description" o
                          then [item] else []
                      | JStr s =>
                          if is_na s then []
                          else [JObj [("name", JStr s);
                                      ("description", JStr "Not detailed by AI")]]
                      | _ => []
                      end) l
                | _ => []
                end)).
Proof.
  rewrite normalize_deliverables. f_equal. f_equal.
  destruct (dict_get "deliverables" d) as [[| | | | l |]|]; try reflexivity.
  simpl. induction l as [|x rest IH]; [reflexivity|].
  simpl. rewrite IH.
  destruct x as [| | | s | | o]; try reflexivity.
  - simpl. destruct (is_na s); reflexivity.
  - simpl. destruct (dict_has "name" o && dict_has "description" o); reflexivity.
Qed.

(** ** Claim C5 (amended)
    For "project_name" and "client_name": when the raw value is missing,
    falsy (null, false, 0, "", an empty list or an empty object) or a
    string case-insensitively equal to "n/a", the output is the sentinel
    "N/A"; every other raw value is kept unchanged. *)
Theorem normalize_scalar_spec (d : dict) (k : string) (Hk : In k scalar_keys) :
  dict_get k (normalize d)
  = match dict_get k d with
    | None => Some (JStr "N/A")
    | Some v =>
        if negb (truthy v) then Some (JStr "N/A")
        else match v with
             | JStr s => if is_na s then Some (JStr "N/A") else Some v
             | _ => Some v
             end
    end.
Proof.
  rewrite normalize_scalar_field by assumption.
  unfold scalar_needs_sentinel.
  destruct (dict_get k d) as [v|]; simpl; [|reflexivity].
  destruct (truthy v); simpl; [|reflexivity].
  destruct v; try reflexivity.
Qed.

Lemma normalize_scalar_spec_witness :
  In "project_name" scalar_keys
  /\ dict_get "project_name" (normalize [("project_name", JStr "Acme Rollout")])
     = Some (JStr "Acme Rollout").
Proof.
  split; [simpl; auto|].
  exact (normalize_scalar_spec [("project_name", JStr "Acme Rollout")] "project_name"
           (or_introl eq_refl)).
Defined.

(** Claim C5, counterexample: a raw "project_name" of 0 (or false) is
    neither missing, empty nor "n/a", yet it is replaced by "N/A". *)
Lemma normalize_scalar_zero_replaced :
  dict_get "project_name" (normalize [("project_name", JNum 0)]) = Some (JStr "N/A")
  /\ dict_get "project_name" (normalize [("project_name", JNum 0)]) <> Some (JNum 0)
  /\ dict_get "client_name" (normalize [("client_name", JBool false)]) <> Some (JBool false).
Proof.
  split; [reflexivity|]. split; vm_compute; discriminate.
Qed.

(* ------------------------------------------------------------------ *)
(** ** The canonical StructuredDocument and its dict form *)

Record deliverable : Type := mk_deliverable { d_name : string; d_description : string }.

Record structured_document : Type := mk_document {
  project_name : string;
  client_name : string;
  objectives : list string;
  scope_of_work : list string;
  out_of_scope : list string;
  deliverables : list deliverable;
  technical_requirements : list string;
  key_constraints : list string;
  stakeholders : list string;
  timeline_overview : list string
}.

Definition deliverable_to_json (x : deliverable) : json :=
  JObj [("name", JStr (d_name x)); ("description", JStr (d_description x))].

Definition strings (l : list string) : json := JArr (map JStr l).

(** The document as the dict [json.loads] would give for its JSON form. *)
Definition to_raw (doc : structured_document) : dict :=
  [("project_name", JStr (project_name doc));
   ("client_name", JStr (client_name doc));
   ("objectives", strings (objectives doc));
   ("scope_of_work", strings (scope_of_work doc));
   ("out_of_scope", strings (out_of_scope doc));
   ("deliverables", JArr (map deliverable_to_json (deliverables doc)));
   ("technical_requirements", strings (technical_requirements doc));
   ("key_constraints", strings (key_constraints doc));
   ("stakeholders", strings (stakeholders doc));
   ("timeline_overview", strings (timeline_overview doc))].

(** Canonical: scalars are the literal sentinel "N/A" or a non-empty
    string that is not a sentinel variant; no list element is
    case-insensitively "n/a". *)
Definition canonical_scalar (s : string) : bool :=
  String.eqb s "N/A" || (negb (String.eqb s "") && negb (is_na s)).

Definition canonical_list (l : list string) : bool := forallb (fun s => negb (is_na s)) l.

Definition canonical (doc : structured_document) : bool :=
  canonical_scalar (project_name doc) && canonical_scalar (client_name doc)
  && canonical_list (objectives doc) && canonical_list (scope_of_work doc)
  && canonical_list (out_of_scope doc) && canonical_list (technical_requirements doc)
  && canonical_list (key_constraints doc) && canonical_list (stakeholders doc)
  && canonical_list (timeline_overview doc).

Lemma filter_canonical_list (l : list string) :
  canonical_list l = true -> filter keep_string_item (map JStr l) = map JStr l.
Proof.
  induction l as [|s rest IH]; simpl; [reflexivity|].
  intro H. apply andb_prop in H. destruct H as [H1 H2].
  rewrite H1, IH by assumption. reflexivity.
Qed.

Lemma clean_deliverables_canonical (ds : list deliverable) :
  clean_deliverable_items (map deliverable_to_json ds) = map deliverable_to_json ds.
Proof.
  induction ds as [|x rest IH]; simpl; [reflexivity|].
  rewrite IH. reflexivity.
Qed.

(** A cleanup loop over keys whose values are already clean is the identity. *)
Lemma clean_list_fields_fixed (keys : list string) (d : dict) :
  (forall k, In k keys -> dict_get k d = Some (ensure_list_of_strings (dict_get k d))) ->
  clean_list_fields keys d = d.
Proof.
  induction keys as [|key rest IH]; intro H; simpl; [reflexivity|].
  rewrite dict_set_same by (apply H; left; reflexivity).
  apply IH. intros k Hk. apply H. right; assumption.
Qed.

Lemma clean_scalar_fields_fixed (keys : list string) (d : dict) :
  (forall k, In k keys -> scalar_needs_sentinel (dict_get k d) = true ->
             dict_get k d = Some (JStr "N/A")) ->
  clean_scalar_fields keys d = d.
Proof.
  induction keys as [|key rest IH]; intro H; simpl; [reflexivity|].
  destruct (scalar_needs_sentinel (dict_get key d)) eqn:E.
  - rewrite dict_set_same by (apply H; [left; reflexivity | assumption]).
    apply IH. intros k Hk. apply H. right; assumption.
  - apply IH. intros k Hk. apply H. right; assumption.
Qed.

Lemma canonical_scalar_sentinel (s : string) :
  canonical_scalar s = true ->
  scalar_needs_sentinel (Some (JStr s)) = true -> s = "N/A".
Proof.
  unfold canonical_scalar, scalar_needs_sentinel; simpl.
  destruct (String.eqb s "N/A") eqn:E; [intros; apply String.eqb_eq; assumption|].
  simpl. destruct (String.eqb s ""), (is_na s); simpl; discriminate.
Qed.

(** ** Claim C9
    Re-feeding a canonical document, as the dict of its JSON form, to the
    cleanup returns exactly that dict. *)
Theorem normalize_idempotent_canonical (doc : structured_document)
  (Hcanon : canonical doc = true) :
  normalize (to_raw doc) = to_raw doc.
Proof.
  unfold canonical in Hcanon.
  repeat match goal with H : _ && _ = true |- _ => apply andb_prop in H; destruct H end.
  unfold normalize.
  rewrite clean_list_fields_fixed.
  2:{ intros k Hk.
      simpl in Hk; intuition subst; simpl; unfold strings;
        rewrite filter_canonical_list by assumption; reflexivity. }
  rewrite dict_set_same.
  2:{ simpl. rewrite clean_deliverables_canonical. reflexivity. }
  apply clean_scalar_fields_fixed.
  intros k Hk Hs. simpl in Hk. destruct Hk as [<-|[<-|[]]]; simpl in *; f_equal; f_equal;
    apply canonical_scalar_sentinel; assumption.
Qed.

Definition sample_document : structured_document :=
  mk_document "Acme Rollout" "N/A" ["Build API"; "Deploy"] [] [] 
    [mk_deliverable "Report" "Final report"] ["Python"] [] ["PMO"; "PMO"] ["6 months"].

Lemma normalize_idempotent_canonical_witness :
  canonical sample_document = true
  /\ normalize (to_raw sample_document) = to_raw sample_document.
Proof.
  split; [vm_compute; reflexivity|].
  apply normalize_idempotent_canonical. vm_compute; reflexivity.
Defined.

(* ------------------------------------------------------------------ *)
(** ** Orchestrator and client claims *)

Definition quoted (s : string) : string := dq ++ s ++ dq.

(** The string [_call_llm] returns for a quota error in JSON mode. *)
Definition quota_response : string :=
  "{" ++ quoted "error" ++ ":" ++ quoted "quota exceeded" ++ "}".

Lemma error_not_schema_key : ~ In "error" schema_keys.
Proof. simpl; intuition discriminate. Qed.

(** ** Claim C2 (amended)
    The extraction call does not look for an "error" key: a decoded object
    carrying one is cleaned like any other object, and the returned dict
    keeps the "error" entry unchanged next to the cleaned schema fields.
    When that entry is truthy, the caller's check classifies the result as
    a failure carrying it. *)
Theorem extraction_error_object_kept (loads : string -> option json)
  (response_content : string) (o : dict) (v : json)
  (Hdecode : loads response_content = Some (JObj o))
  (Herr : dict_get "error" o = Some v) :
  after_response loads response_content = normalize o
  /\ dict_get "error" (after_response loads response_content) = Some v
  /\ (truthy v = true -> classify (after_response loads response_content) = Failure v).
Proof.
  assert (Hres : after_response loads response_content = normalize o)
    by (unfold after_response; rewrite Hdecode; reflexivity).
  assert (Hget : dict_get "error" (normalize o) = Some v)
    by (rewrite normalize_other_field by apply error_not_schema_key; assumption).
  rewrite Hres. split; [reflexivity|]. split; [assumption|].
  intro Ht. unfold classify. rewrite Hget. simpl. rewrite Ht.
  rewrite andb_false_r. reflexivity.
Qed.

Lemma extraction_error_object_kept_witness :
  json_loads quota_response = Some (JObj [("error", JStr "quota exceeded")])
  /\ classify (after_response json_loads quota_response) = Failure (JStr "quota exceeded").
Proof.
  split; [vm_compute; reflexivity|].
  apply (extraction_error_object_kept json_loads quota_response
           [("error", JStr "quota exceeded")] (JStr "quota exceeded"));
    vm_compute; reflexivity.
Defined.

(** Claim C2, counterexample: on the backend string
    {"error":"quota exceeded"} the decoded object is cleaned further: the
    returned dict is not the decoded object but has the ten schema fields
    added with their defaults. *)
Lemma extraction_error_object_normalized :
  json_loads quota_response = Some (JObj [("error", JStr "quota exceeded")])
  /\ after_response json_loads quota_response <> [("error", JStr "quota exceeded")]
  /\ dict_get "project_name" (after_response json_loads quota_response) = Some (JStr "N/A")
  /\ dict_get "objectives" (after_response json_loads quota_response) = Some (JArr []).
Proof.
  split; [vm_compute; reflexivity|].
  split; [vm_compute; discriminate|].
  split; vm_compute; reflexivity.
Qed.

(** ** Claim C6
    [_call_llm] catches every exception of class [Exception] raised in its
    body and returns a string instead: the JSON object {"error": str(e)}
    when JSON output was requested, "Error: " followed by str(e)
    otherwise.  It never raises an [Exception]. *)
Theorem call_llm_no_exception (provider_call : string -> list message -> string -> outcome string)
  (clients : llm_clients) (messages : list message) (response_format llm_choice : string) :
  (forall e, call_llm_body provider_call clients messages response_format llm_choice = Raised e ->
     is_exception e = true ->
     call_llm provider_call clients messages response_format llm_choice
     = Ok (if String.eqb response_format "json_object"
           then dumps_error_object (exc_str e)
           else "Error: " ++ exc_str e))
  /\ (forall e, call_llm provider_call clients messages response_format llm_choice = Raised e ->
        is_exception e = false).
Proof.
  unfold call_llm. split.
  - intros e Hb He. rewrite Hb, He. reflexivity.
  - intros e. destruct (call_llm_body provider_call clients messages response_format llm_choice)
      as [s|e0]; [discriminate|].
    destruct (is_exception e0) eqn:E; [discriminate|].
    intro H; injection H as <-; assumption.
Qed.

Definition quota_provider (provider : string) (messages : list message) (fmt : string)
  : outcome string :=
  Raised (mk_exn "RateLimitError" "quota exceeded" true).

Lemma call_llm_no_exception_witness :
  call_llm quota_provider (mk_clients true false) [] "json_object" "openai"
  = Ok (dumps_error_object "quota exceeded")
  /\ call_llm quota_provider (mk_clients false false) [] "text" "openai"
     = Ok ("Error: " ++ "OpenAI client not initialized. Call initialize_llm_clients first.").
Proof.
  split.
  - apply (proj1 (call_llm_no_exception quota_provider (mk_clients true false) []
                    "json_object" "openai") (mk_exn "RateLimitError" "quota exceeded" true));
      reflexivity.
  - apply (proj1 (call_llm_no_exception quota_provider (mk_clients false false) []
                    "text" "openai")
             (value_error "OpenAI client not initialized. Call initialize_llm_clients first."));
      reflexivity.
Defined.

(** ** Claim C7
    Both generators refuse with their fixed message, without calling the
    backend, on an absent, empty or error-carrying input; the two guards
    are the same test ([failed_input]), which is also exactly the test by
    which [app.py] classifies an extraction result as a failure.  The
    summary generator calls the backend exactly when the input is not a
    failed one; the proposal generator, when it returns, calls the backend
    exactly when the input is not a failed one, and it raises (from its
    prompt rendering, before any backend call) only on an input that is
    not a failed one. *)
Theorem generators_refuse_failed_input (sow_structured_data : option dict) :
  (failed_input sow_structured_data = true ->
     analysis_agent_run sow_structured_data = Done summary_refusal
     /\ proposal_generation_agent_run sow_structured_data = Ok (Done proposal_refusal))
  /\ calls_backend (analysis_agent_run sow_structured_data) = negb (failed_input sow_structured_data)
  /\ match proposal_generation_agent_run sow_structured_data with
     | Ok step => calls_backend step = negb (failed_input sow_structured_data)
     | Raised _ => failed_input sow_structured_data = false
     end
  /\ (forall d, sow_structured_data = Some d ->
        (failed_input (Some d) = true <-> exists v, classify d = Failure v)).
Proof.
  unfold analysis_agent_run, proposal_generation_agent_run, failed_input.
  destruct sow_structured_data as [d|].
  - destruct (negb (truthy (JObj d)) || truthy_opt (dict_get "error" d)) eqn:E.
    + split; [intros; split; reflexivity|]. split; [reflexivity|]. split; [reflexivity|].
      intros d' Hd; injection Hd as <-. rewrite E. split; [|reflexivity].
      intros _. unfold classify.
      destruct (truthy (JObj d)) eqn:Ht.
      * simpl in E |- *. rewrite E. eexists; reflexivity.
      * eexists; reflexivity.
    + split; [discriminate|]. split; [reflexivity|].
      split; [destruct (compute_proposal_fragments d); reflexivity|].
      intros d' Hd; injection Hd as <-. rewrite E. split; [discriminate|].
      intros [v Hv]. unfold classify in Hv.
      apply orb_false_iff in E. destruct E as [E1 E2].
      apply negb_false_iff in E1. rewrite E1, E2 in Hv. discriminate.
  - split; [intros; split; reflexivity|]. split; [reflexivity|]. split; [reflexivity|].
    intros d Hd; discriminate.
Qed.

Lemma generators_refuse_failed_input_witness :
  failed_input (Some (error_dict "quota exceeded")) = true
  /\ analysis_agent_run (Some (error_dict "quota exceeded")) = Done summary_refusal
  /\ proposal_generation_agent_run (Some (error_dict "quota exceeded")) = Ok (Done proposal_refusal).
Proof.
  split; [reflexivity|].
  apply (proj1 (generators_refuse_failed_input (Some (error_dict "quota exceeded")))).
  reflexivity.
Defined.

(** ** Claim C8 (amended)
    On empty document text the extraction call returns at once, without
    calling the backend, the error dict
    {"error": "No SOW text provided for extraction."}, which the caller
    classifies as a failure. *)
Theorem extraction_empty_text (loads : string -> option json) :
  data_extraction_agent_run loads "" = Done (error_dict no_text_message)
  /\ calls_backend (data_extraction_agent_run loads "") = false
  /\ classify (error_dict no_text_message) = Failure (JStr no_text_message).
Proof.
  split; [reflexivity|]. split; reflexivity.
Qed.

(** Claim C8, counterexample: the message is not "no text provided". *)
Lemma extraction_empty_text_message :
  data_extraction_agent_run json_loads "" = Done (error_dict no_text_message)
  /\ data_extraction_agent_run json_loads "" <> Done (error_dict "no text provided").
Proof.
  split; [reflexivity|]. vm_compute. discriminate.
Qed.

(** ** Claim C10
    A backend string that decodes to a JSON value which is not an object
    makes the first [parsed_data.get] raise [AttributeError]; the generic
    handler returns an error dict whose message starts with
    "An unexpected error occurred", not the decode-failure dict and not a
    success. *)
Theorem extraction_non_object_unexpected (loads : string -> option json)
  (response_content : string) (v : json)
  (Hdecode : loads response_content = Some v)
  (Hnotobj : forall o, v <> JObj o) :
  after_response loads response_content
  = error_dict (unexpected_prefix ++ "'" ++ py_type_name v ++ "' object has no attribute 'get'")
  /\ String.prefix "An unexpected error occurred"
       (unexpected_prefix ++ "'" ++ py_type_name v ++ "' object has no attribute 'get'") = true
  /\ classify (after_response loads response_content)
     = Failure (JStr (unexpected_prefix ++ "'" ++ py_type_name v
                      ++ "' object has no attribute 'get'")).
Proof.
  assert (Hres : after_response loads response_content
                 = error_dict (unexpected_prefix ++ "'" ++ py_type_name v
                               ++ "' object has no attribute 'get'")).
  { unfold after_response. rewrite Hdecode.
    destruct v as [| | | | | o]; try reflexivity. exfalso; apply (Hnotobj o); reflexivity. }
  rewrite Hres. split; [reflexivity|]. split; reflexivity.
Qed.

Lemma extraction_non_object_unexpected_witness :
  json_loads "[1, 2]" = Some (JArr [JNum 1; JNum 2])
  /\ after_response json_loads "[1, 2]"
     = error_dict "An unexpected error occurred: 'list' object has no attribute 'get'".
Proof.
  split; [vm_compute; reflexivity|].
  exact (proj1 (extraction_non_object_unexpected json_loads "[1, 2]" (JArr [JNum 1; JNum 2])
                  ltac:(vm_compute; reflexivity) ltac:(intros o H; discriminate H))).
Defined.

(* ------------------------------------------------------------------ *)
(** ** Further properties of the extraction agent *)

Lemma substring0_prefix (n : nat) (s : string) : String.prefix (substring 0 n s) s = true.
Proof.
  revert n; induction s as [|c s IH]; intros [|n]; simpl; try reflexivity.
  destruct (ascii_dec c c) as [_|n']; [apply IH | contradiction n'; reflexivity].
Qed.

Lemma substring0_length (n : nat) (s : string) :
  String.length (substring 0 n s) = Nat.min n (String.length s).
Proof.
  revert n; induction s as [|c s IH]; intros [|n]; simpl; try reflexivity.
  rewrite IH. reflexivity.
Qed.

Lemma substring0_short (n : nat) (s : string) :
  (String.length s <= n)%nat -> substring 0 n s = s.
Proof.
  revert n; induction s as [|c s IH]; intros [|n] H; simpl in *; try reflexivity; try lia.
  rewrite IH by lia. reflexivity.
Qed.

(** A backend string that does not decode gives an error dict carrying a
    prefix of the raw string of length [min 500 (length s)] after a fixed
    message, and the caller classifies it as a failure. *)
Theorem extraction_decode_failure_excerpt (loads : string -> option json)
  (response_content : string) (Hdecode : loads response_content = None) :
  exists ex,
    after_response loads response_content = error_dict (decode_failure_prefix ++ ex)
    /\ String.prefix ex response_content = true
    /\ String.length ex = Nat.min 500 (String.length response_content)
    /\ classify (after_response loads response_content)
       = Failure (JStr (decode_failure_prefix ++ ex)).
Proof.
  exists (excerpt response_content).
  unfold after_response. rewrite Hdecode.
  split; [reflexivity|]. split; [apply substring0_prefix|].
  split; [apply substring0_length|]. reflexivity.
Qed.

Lemma extraction_decode_failure_excerpt_witness :
  json_loads "not json" = None
  /\ exists ex,
       after_response json_loads "not json" = error_dict (decode_failure_prefix ++ ex)
       /\ String.prefix ex "not json" = true
       /\ String.length ex = Nat.min 500 (String.length "not json")
       /\ classify (after_response json_loads "not json")
          = Failure (JStr (decode_failure_prefix ++ ex)).
Proof.
  split; [vm_compute; reflexivity|].
  apply extraction_decode_failure_excerpt. vm_compute; reflexivity.
Defined.

(** For non-empty text the extraction agent makes one JSON-mode backend
    call whose prompt embeds the first [min 15000 (length text)] characters
    of the text; text of at most 15000 characters is embedded whole. *)
Theorem extraction_request_truncated (loads : string -> option json) (sow_text : string)
  (Hne : sow_text <> "") :
  exists t,
    data_extraction_agent_run loads sow_text
    = CallLLM (extraction_messages t) "json_object" (after_response loads)
    /\ String.prefix t sow_text = true
    /\ String.length t = Nat.min 15000 (String.length sow_text)
    /\ ((String.length sow_text <= 15000)%nat -> t = sow_text).
Proof.
  exists (substring 0 15000 sow_text).
  unfold data_extraction_agent_run.
  destruct (String.eqb sow_text "") eqn:E.
  - apply String.eqb_eq in E. contradiction.
  - split; [reflexivity|]. split; [apply substring0_prefix|].
    split; [apply substring0_length|]. apply substring0_short.
Qed.

Lemma extraction_request_truncated_witness :
  "Scope: build an API" <> ""
  /\ data_extraction_agent_run json_loads "Scope: build an API"
     = CallLLM (extraction_messages "Scope: build an API") "json_object" (after_response json_loads).
Proof.
  split; [discriminate|].
  destruct (extraction_request_truncated json_loads "Scope: build an API" ltac:(discriminate))
    as [t [H1 [_ [_ H4]]]].
  rewrite H1, H4 by (vm_compute; lia). reflexivity.
Defined.

Lemma clean_deliverable_items_fixed (items : list json) :
  Forall deliverable_shaped items -> clean_deliverable_items items = items.
Proof.
  induction items as [|x rest IH]; intro H; simpl; [reflexivity|].
  inversion H as [|? ? [o [-> [Hn Hd]]] Hrest]; subst.
  simpl. rewrite Hn, Hd. simpl. rewrite IH by assumption. reflexivity.
Qed.

Lemma forall_not_na_canonical (l : list string) :
  Forall (fun s => is_na s = false) l -> canonical_list l = true.
Proof.
  induction 1 as [|s rest Hs _ IH]; simpl; [reflexivity|].
  rewrite Hs, IH. reflexivity.
Qed.

(** The cleanup is idempotent on every dict: cleaning its own output again
    changes nothing (values, keys and key order). *)
Theorem normalize_idempotent (d : dict) : normalize (normalize d) = normalize d.
Proof.
  set (D := normalize d).
  unfold normalize at 1.
  rewrite (clean_list_fields_fixed list_keys D).
  2:{ intros k Hk. unfold D. rewrite normalize_list_field by assumption.
      destruct (ensure_list_of_strings_shape (dict_get k d)) as [l [Hl Hall]].
      rewrite Hl. simpl. rewrite filter_canonical_list
        by (apply forall_not_na_canonical; assumption).
      reflexivity. }
  rewrite dict_set_same.
  2:{ unfold D. rewrite normalize_deliverables. simpl. f_equal. f_equal.
      symmetry. apply clean_deliverable_items_fixed.
      destruct (dict_get "deliverables" d) as [[| | | | items |]|]; simpl; try constructor.
      apply clean_deliverable_items_shaped. }
  apply clean_scalar_fields_fixed.
  intros k Hk Hs. unfold D in *.
  rewrite normalize_scalar_field in Hs |- * by assumption.
  destruct (scalar_needs_sentinel (dict_get k d)) eqn:E; [reflexivity|].
  rewrite Hs in E. discriminate.
Qed.

(* key bookkeeping *)
Definition mem_key (k : string) (keys : list string) : bool := existsb (String.eqb k) keys.

Definition add_key (k : string) (keys : list string) : list string :=
  if mem_key k keys then keys else keys ++ [k].

Definition add_keys (new : list string) (keys : list string) : list string :=
  fold_left (fun acc k => add_key k acc) new keys.

Lemma mem_key_get (k : string) (d : dict) :
  mem_key k (map fst d) = match dict_get k d with Some _ => true | None => false end.
Proof.
  induction d as [|[k' v] rest IH]; simpl; [reflexivity|].
  unfold mem_key in *; simpl. destruct (String.eqb k k'); simpl; [reflexivity | apply IH].
Qed.

Lemma keys_dict_set (k : string) (v : json) (d : dict) :
  map fst (dict_set k v d) = add_key k (map fst d).
Proof.
  unfold add_key, mem_key.
  induction d as [|[k' v'] rest IH]; simpl; [reflexivity|].
  destruct (String.eqb k k') eqn:E; simpl.
  - apply String.eqb_eq in E; subst; reflexivity.
  - rewrite IH. destruct (existsb (String.eqb k) (map fst rest)); reflexivity.
Qed.

Lemma keys_clean_list_fields (keys : list string) (d : dict) :
  map fst (clean_list_fields keys d) = add_keys keys (map fst d).
Proof.
  revert d; induction keys as [|k rest IH]; intro d; simpl; [reflexivity|].
  rewrite IH, keys_dict_set. reflexivity.
Qed.

Lemma keys_clean_scalar_fields (keys : list string) (d : dict) :
  map fst (clean_scalar_fields keys d) = add_keys keys (map fst d).
Proof.
  revert d; induction keys as [|k rest IH]; intro d; simpl; [reflexivity|].
  rewrite IH. f_equal.
  destruct (scalar_needs_sentinel (dict_get k d)) eqn:E.
  - apply keys_dict_set.
  - unfold add_key. rewrite mem_key_get.
    destruct (dict_get k d); [reflexivity | discriminate].
Qed.

Lemma add_keys_nodup (new keys : list string) :
  NoDup new ->
  add_keys new keys = (keys ++ filter (fun k => negb (mem_key k keys)) new)%list.
Proof.
  revert keys; induction new as [|k rest IH]; intros keys Hnd; simpl.
  - rewrite app_nil_r. reflexivity.
  - inversion Hnd as [|? ? Hnotin Hnd']; subst.
    rewrite IH by assumption. unfold add_key.
    destruct (mem_key k keys) eqn:E; simpl; [reflexivity|].
    rewrite <- app_assoc. simpl. f_equal. f_equal.
    apply filter_ext_in. intros x Hx.
    unfold mem_key. rewrite existsb_app. simpl.
    destruct (String.eqb x k) eqn:Ex.
    + apply String.eqb_eq in Ex; subst. contradiction.
    + rewrite orb_false_r. reflexivity.
Qed.

Lemma schema_keys_nodup : NoDup schema_keys.
Proof. unfold schema_keys; simpl; repeat constructor; simpl; intuition discriminate. Qed.

(** The cleanup never removes or reorders keys: the output's keys are the
    input's keys in their order, followed by the missing schema fields in
    schema order (the seven list fields, "deliverables", "project_name",
    "client_name"). *)
Theorem normalize_keys (d : dict) :
  map fst (normalize d)
  = (map fst d ++ filter (fun k => negb (mem_key k (map fst d))) schema_keys)%list.
Proof.
  unfold normalize.
  rewrite keys_clean_scalar_fields, keys_dict_set, keys_clean_list_fields.
  rewrite <- add_keys_nodup by apply schema_keys_nodup.
  unfold schema_keys, add_keys. rewrite !fold_left_app. reflexivity.
Qed.

(* ------------------------------------------------------------------ *)
(** ** The generators on the extraction agent's output *)

Lemma join_items_strings (sep : string) (i : nat) (l : list string) :
  join_items sep i (map JStr l) = Ok l.
Proof.
  revert i; induction l as [|s rest IH]; intro i; simpl; [reflexivity|].
  rewrite IH. reflexivity.
Qed.

Lemma format_list_strings (l : list string) (dflt : string) :
  format_list_for_prompt (Some (JArr (map JStr l))) dflt
  = Ok (match l with [] => dflt | _ => bullet ++ String.concat bullet l end).
Proof.
  unfold format_list_for_prompt. destruct l as [|s rest]; [reflexivity|].
  simpl. rewrite join_items_strings. reflexivity.
Qed.

Lemma join_or_strings (sep : string) (l : list string) (fb : string) :
  join_or sep (Some (JArr (map JStr l))) fb
  = Ok (match l with [] => fb | _ => String.concat sep l end).
Proof.
  unfold join_or. destruct l as [|s rest]; [reflexivity|].
  simpl. rewrite join_items_strings. reflexivity.
Qed.

Lemma deliverables_fragment_array (items : list json) :
  exists t, deliverables_fragment (Some (JArr items)) = Ok t.
Proof.
  unfold deliverables_fragment, deliverables_builder.
  destruct (truthy_opt (Some (JArr items))).
  - destruct (flat_map _ items) as [|x rest]; eexists; reflexivity.
  - eexists; reflexivity.
Qed.

Lemma normalize_list_strings (d : dict) (k : string) :
  In k list_keys -> exists l, dict_get k (normalize d) = Some (JArr (map JStr l)).
Proof.
  intro Hk. rewrite normalize_list_field by assumption.
  destruct (ensure_list_of_strings_shape (dict_get k d)) as [l [Hl _]].
  exists l. rewrite Hl. reflexivity.
Qed.

Lemma str_append_nil_r (s : string) : s ++ "" = s.
Proof. induction s as [|c s IH]; simpl; [reflexivity | rewrite IH; reflexivity]. Qed.

Lemma str_append_assoc (a b c : string) : a ++ (b ++ c) = (a ++ b) ++ c.
Proof. induction a as [|x a IH]; simpl; [reflexivity | rewrite IH; reflexivity]. Qed.

Lemma map_JStr_inj (l l' : list string) : map JStr l = map JStr l' -> l = l'.
Proof.
  revert l'; induction l as [|s rest IH]; intros [|s' rest'] H; simpl in H;
    try discriminate; [reflexivity|].
  injection H as -> H. f_equal. apply IH; assumption.
Qed.

(** [bullet ++ String.concat bullet l], as the item-per-line text it is. *)
Definition bullet_lines (l : list string) (fallback : string) : string :=
  match l with
  | [] => fallback
  | _ => String.concat "" (map (fun s => bullet ++ s) l)
  end.

Lemma bullet_concat (l : list string) :
  l <> [] -> bullet ++ String.concat bullet l = String.concat "" (map (fun s => bullet ++ s) l).
Proof.
  intro Hne. destruct l as [|s rest]; [contradiction|]. clear Hne.
  revert s; induction rest as [|t rest IH]; intro s; [reflexivity|].
  specialize (IH t). simpl in IH |- *. rewrite <- IH. reflexivity.
Qed.

(** On the cleaned output of any decoded object the proposal generator's
    rendering never raises; each bulleted section (objectives, scope, out of
    scope, key constraints) is its fallback sentence exactly when the list
    is empty and otherwise one "\n- item" line per item, and the project
    and client names are the cleaned values, never the generator's own
    defaults. *)
Theorem proposal_fragments_of_normalized (o : dict) :
  exists f, compute_proposal_fragments (normalize o) = Ok f
  /\ projectName f = dict_get_default "project_name" JNull (normalize o)
  /\ clientName f = dict_get_default "client_name" JNull (normalize o)
  /\ (forall l, dict_get "objectives" (normalize o) = Some (JArr (map JStr l)) ->
        objectives_fragment f = bullet_lines l objectives_fallback)
  /\ (forall l, dict_get "scope_of_work" (normalize o) = Some (JArr (map JStr l)) ->
        scope_fragment f = bullet_lines l scope_fallback)
  /\ (forall l, dict_get "out_of_scope" (normalize o) = Some (JArr (map JStr l)) ->
        out_of_scope_fragment f = bullet_lines l out_of_scope_fallback)
  /\ (forall l, dict_get "key_constraints" (normalize o) = Some (JArr (map JStr l)) ->
        key_constraints_fragment f = bullet_lines l constraints_fallback).
Proof.
  destruct (normalize_list_strings o "objectives") as [lo Ho]; [simpl; tauto|].
  destruct (normalize_list_strings o "scope_of_work") as [ls Hs]; [simpl; tauto|].
  destruct (normalize_list_strings o "out_of_scope") as [lx Hx]; [simpl; tauto|].
  destruct (normalize_list_strings o "technical_requirements") as [lt Ht]; [simpl; tauto|].
  destruct (normalize_list_strings o "key_constraints") as [lk Hk]; [simpl; tauto|].
  destruct (normalize_list_strings o "stakeholders") as [lh Hh]; [simpl; tauto|].
  destruct (normalize_list_strings o "timeline_overview") as [lm Hm]; [simpl; tauto|].
  destruct (deliverables_fragment_array
              (cleaned_deliverables (dict_get "deliverables" o))) as [dt Hd].
  assert (Hproj : dict_get "project_name" (normalize o) <> None).
  { rewrite normalize_scalar_field by (simpl; tauto).
    unfold scalar_needs_sentinel.
    destruct (dict_get "project_name" o) as [v|]; simpl; [|discriminate].
    destruct (truthy v) eqn:E; simpl; [|discriminate].
    destruct v; try discriminate. destruct (is_na s); discriminate. }
  assert (Hcli : dict_get "client_name" (normalize o) <> None).
  { rewrite normalize_scalar_field by (simpl; tauto).
    unfold scalar_needs_sentinel.
    destruct (dict_get "client_name" o) as [v|]; simpl; [|discriminate].
    destruct (truthy v) eqn:E; simpl; [|discriminate].
    destruct v; try discriminate. destruct (is_na s); discriminate. }
  unfold compute_proposal_fragments.
  rewrite Ho, Hs, Hx, Ht, Hk, Hh, Hm, normalize_deliverables, Hd.
  rewrite !format_list_strings, !join_or_strings.
  eexists; split; [reflexivity|].
  unfold dict_get_default.
  split; [destruct (dict_get "project_name" (normalize o)); [reflexivity | contradiction]|].
  split; [destruct (dict_get "client_name" (normalize o)); [reflexivity | contradiction]|].
  repeat split; intros l Hl; simpl.
  all: injection Hl as Hl; apply map_JStr_inj in Hl; subst.
  all: unfold bullet_lines; destruct l as [|s rest]; [reflexivity|];
       apply bullet_concat; discriminate.
Qed.

Lemma normalize_nonempty (o : dict) : truthy (JObj (normalize o)) = true.
Proof.
  destruct (normalize_list_strings o "objectives") as [l Hl]; [simpl; tauto|].
  destruct (normalize o) as [|kv rest] eqn:E; [discriminate | reflexivity].
Qed.

Lemma normalize_error_entry (o : dict) :
  dict_get "error" (normalize o) = dict_get "error" o.
Proof. apply normalize_other_field, error_not_schema_key. Qed.

Lemma proposal_fragments_of_normalized_aux (o : dict) :
  exists f, compute_proposal_fragments (normalize o) = Ok f.
Proof.
  destruct (normalize_list_strings o "objectives") as [lo Ho]; [simpl; tauto|].
  destruct (normalize_list_strings o "scope_of_work") as [ls Hs]; [simpl; tauto|].
  destruct (normalize_list_strings o "out_of_scope") as [lx Hx]; [simpl; tauto|].
  destruct (normalize_list_strings o "technical_requirements") as [lt Ht]; [simpl; tauto|].
  destruct (normalize_list_strings o "key_constraints") as [lk Hk]; [simpl; tauto|].
  destruct (normalize_list_strings o "stakeholders") as [lh Hh]; [simpl; tauto|].
  destruct (normalize_list_strings o "timeline_overview") as [lm Hm]; [simpl; tauto|].
  destruct (deliverables_fragment_array
              (cleaned_deliverables (dict_get "deliverables" o))) as [dt Hd].
  unfold compute_proposal_fragments.
  rewrite Ho, Hs, Hx, Ht, Hk, Hh, Hm, normalize_deliverables, Hd.
  rewrite !format_list_strings, !join_or_strings.
  eexists; reflexivity.
Qed.

(** A decoded object with no truthy "error" entry: the extraction result
    is a success, and both generators get past their guard and call the
    backend (the proposal generator's rendering does not raise). *)
Theorem extraction_success_reaches_generators (loads : string -> option json)
  (response_content : string) (o : dict)
  (Hdecode : loads response_content = Some (JObj o))
  (Hnoerr : truthy_opt (dict_get "error" o) = false) :
  classify (after_response loads response_content) = Success (normalize o)
  /\ calls_backend (analysis_agent_run (Some (after_response loads response_content))) = true
  /\ exists f, proposal_generation_agent_run (Some (after_response loads response_content))
               = Ok (CallLLM (normalize o, f) "text" (fun r => r)).
Proof.
  assert (Hres : after_response loads response_content = normalize o)
    by (unfold after_response; rewrite Hdecode; reflexivity).
  rewrite Hres.
  pose proof (normalize_nonempty o) as Hne.
  pose proof (normalize_error_entry o) as He. rewrite <- He in Hnoerr.
  split; [unfold classify; rewrite Hne, Hnoerr; reflexivity|].
  split; [unfold analysis_agent_run; rewrite Hne, Hnoerr; reflexivity|].
  destruct (proposal_fragments_of_normalized_aux o) as [f Hf].
  exists f. unfold proposal_generation_agent_run. rewrite Hne, Hnoerr. simpl. rewrite Hf.
  reflexivity.
Qed.

Lemma extraction_success_reaches_generators_witness :
  classify (after_response json_loads ("{" ++ quoted "objectives" ++ ": [" ++ quoted "Ship" ++ "]}"))
     = Success (normalize [("objectives", JArr [JStr "Ship"])]).
Proof.
  apply (extraction_success_reaches_generators json_loads
           ("{" ++ quoted "objectives" ++ ": [" ++ quoted "Ship" ++ "]}")
           [("objectives", JArr [JStr "Ship"])]); vm_compute; reflexivity.
Defined.

(** Past its guard, the proposal generator raises [TypeError] when the
    dict's "objectives" value is a non-zero number or [true] (a value the
    cleanup never leaves there): its rendering is not total on arbitrary
    dicts. *)
Theorem proposal_raises_on_non_iterable (d : dict) (v : json)
  (Hv : v = JBool true \/ exists z, v = JNum z /\ z <> 0%Z)
  (Hobj : dict_get "objectives" d = Some v)
  (Hnoerr : truthy_opt (dict_get "error" d) = false) :
  proposal_generation_agent_run (Some d) = Raised (type_error "can only join an iterable").
Proof.
  assert (Hne : truthy (JObj d) = true) by (destruct d; [discriminate | reflexivity]).
  unfold proposal_generation_agent_run. rewrite Hne, Hnoerr. simpl.
  unfold compute_proposal_fragments, format_list_for_prompt. rewrite Hobj.
  destruct Hv as [->|[z [-> Hz]]]; simpl; [reflexivity|].
  destruct (Z.eqb z 0) eqn:E; [apply Z.eqb_eq in E; contradiction | reflexivity].
Qed.

Lemma proposal_raises_on_non_iterable_witness :
  proposal_generation_agent_run (Some [("project_name", JStr "X"); ("objectives", JNum 42)])
  = Raised (type_error "can only join an iterable").
Proof.
  apply (proposal_raises_on_non_iterable _ (JNum 42)); [right; exists 42%Z; split; [reflexivity | discriminate] | reflexivity | reflexivity].
Defined.

(** A provider exception during extraction travels as data: [_call_llm]
    returns the JSON error string, and, given a decoder that reads it back
    as {"error": msg}, the extraction returns that object cleaned.  The
    caller sees a failure carrying msg when msg is non-empty, and a success
    (an all-default document with an empty "error" entry) when msg is
    empty. *)
Theorem provider_error_through_extraction
  (provider_call : string -> list message -> string -> outcome string)
  (clients : llm_clients) (llm_choice : string) (loads : string -> option json)
  (sow_text : string) (e : exn)
  (Hne : sow_text <> "")
  (Hraise : call_llm_body provider_call clients
              (extraction_messages (substring 0 15000 sow_text)) "json_object" llm_choice
            = Raised e)
  (Hexc : is_exception e = true)
  (Hloads : loads (dumps_error_object (exc_str e)) = Some (JObj (error_dict (exc_str e)))) :
  run_agent provider_call clients llm_choice (data_extraction_agent_run loads sow_text)
  = Ok (normalize (error_dict (exc_str e)))
  /\ classify (normalize (error_dict (exc_str e)))
     = if String.eqb (exc_str e) "" then Success (normalize (error_dict ""))
       else Failure (JStr (exc_str e)).
Proof.
  split.
  - unfold run_agent, data_extraction_agent_run.
    destruct (String.eqb sow_text "") eqn:E; [apply String.eqb_eq in E; contradiction|].
    unfold call_llm. rewrite Hraise, Hexc. simpl.
    unfold after_response. rewrite Hloads. reflexivity.
  - unfold classify. rewrite normalize_nonempty, normalize_error_entry. simpl.
    destruct (String.eqb (exc_str e) "") eqn:E; simpl.
    + apply String.eqb_eq in E. rewrite E. reflexivity.
    + reflexivity.
Qed.

Lemma provider_error_through_extraction_witness :
  run_agent quota_provider (mk_clients true false) "openai"
    (data_extraction_agent_run json_loads "Scope of Work")
  = Ok (normalize (error_dict "quota exceeded"))
  /\ classify (normalize (error_dict "quota exceeded")) = Failure (JStr "quota exceeded").
Proof.
  apply (provider_error_through_extraction quota_provider (mk_clients true false) "openai"
           json_loads "Scope of Work" (mk_exn "RateLimitError" "quota exceeded" true));
    [discriminate | reflexivity | reflexivity | vm_compute; reflexivity].
Defined.

Lemma truthy_env_key (o : option string) :
  truthy_opt (option_map JStr o) = true -> exists k, o = Some k /\ k <> "".
Proof.
  destruct o as [k|]; simpl; [|discriminate].
  intro H. exists k. split; [reflexivity|].
  intro Hk. subst k. discriminate.
Qed.

(** [initialize_llm_clients] succeeds only for the choices "openai" and
    "gemini" with a non-empty matching API key in the environment, and
    after it succeeds [_call_llm] never reports the chosen client as not
    initialised: its body is the provider call itself (for Gemini, on the
    request folded into one user message). *)
Theorem initialize_then_call_dispatches
  (env : string -> option string) (llm_choice : string) (clients clients' : llm_clients)
  (provider_call : string -> list message -> string -> outcome string)
  (messages : list message) (response_format : string)
  (Hinit : initialize_llm_clients env llm_choice clients = Ok clients') :
  ((llm_choice = "openai" /\ exists k, env "OPENAI_API_KEY" = Some k /\ k <> "")
   \/ (llm_choice = "gemini" /\ exists k, env "GOOGLE_API_KEY" = Some k /\ k <> ""))
  /\ call_llm_body provider_call clients' messages response_format llm_choice
     = provider_call llm_choice
         (if String.eqb llm_choice "gemini" then gemini_messages messages else messages)
         response_format.
Proof.
  unfold initialize_llm_clients in Hinit.
  destruct (String.eqb llm_choice "openai") eqn:E1.
  - apply String.eqb_eq in E1; subst llm_choice.
    destruct (truthy_opt (option_map JStr (env "OPENAI_API_KEY"))) eqn:Ek; [|discriminate].
    injection Hinit as <-. split.
    + left. split; [reflexivity | apply truthy_env_key; assumption].
    + reflexivity.
  - destruct (String.eqb llm_choice "gemini") eqn:E2; [|discriminate].
    apply String.eqb_eq in E2; subst llm_choice.
    destruct (truthy_opt (option_map JStr (env "GOOGLE_API_KEY"))) eqn:Ek; [|discriminate].
    injection Hinit as <-. split.
    + right. split; [reflexivity | apply truthy_env_key; assumption].
    + reflexivity.
Qed.

Lemma initialize_then_call_dispatches_witness :
  initialize_llm_clients
    (fun k => if String.eqb k "GOOGLE_API_KEY" then Some "g-key" else None)
    "gemini" (mk_clients false false) = Ok (mk_clients false true)
  /\ call_llm_body quota_provider (mk_clients false true) (extraction_messages "SOW") "json_object" "gemini"
     = quota_provider "gemini" (gemini_messages (extraction_messages "SOW")) "json_object".
Proof.
  split; [reflexivity|].
  exact (proj2 (initialize_then_call_dispatches
                  (fun k => if String.eqb k "GOOGLE_API_KEY" then Some "g-key" else None)
                  "gemini" (mk_clients false false) (mk_clients false true) quota_provider
                  (extraction_messages "SOW") "json_object" eq_refl)).
Defined.

(** On Gemini, the extraction request is one user message: the system
    instruction, a blank line, then the user prompt around the SOW text. *)
Theorem gemini_extraction_request (sow_text_limited : string) :
  gemini_messages (extraction_messages sow_text_limited)
  = [mk_message "user"
       (extraction_system_instruction ++ nl ++ nl
        ++ (extraction_prompt_head ++ sow_text_limited ++ extraction_prompt_tail))].
Proof.
  unfold gemini_messages, extraction_messages. simpl.
  rewrite str_append_nil_r. reflexivity.
Qed.

(** [extract_text_from_docx] never raises an [Exception]-derived error: it
    returns the paragraphs each followed by a newline, and the empty string
    exactly when the document could not be opened or has no paragraph. *)
Theorem docx_text_total (document : outcome (list string))
  (Hexc : forall e, document = Raised e -> is_exception e = true) :
  exists text, extract_text_from_docx document = Ok text
  /\ (text = "" <-> match document with Ok paragraphs => paragraphs = [] | Raised _ => True end).
Proof.
  destruct document as [paragraphs|e]; simpl.
  - eexists. split; [reflexivity|].
    destruct paragraphs as [|p rest]; simpl; [tauto|].
    split; intro H; [destruct rest; destruct p; simpl in H; discriminate H | discriminate H].
  - rewrite (Hexc e eq_refl). eexists. split; [reflexivity | tauto].
Qed.

Lemma docx_text_total_witness :
  extract_text_from_docx (Raised (mk_exn "PackageNotFoundError" "File is not a zip file" true))
  = Ok "".
Proof.
  destruct (docx_text_total (Raised (mk_exn "PackageNotFoundError" "File is not a zip file" true)))
    as [text [Hrun Hiff]]; [intros e He; injection He as <-; reflexivity|].
  rewrite Hrun. f_equal. apply Hiff. exact I.
Defined.

Definition page_text (t : option string) : string :=
  match t with Some s => s | None => "" end.

Lemma concat_empty_cons (x : string) (l : list string) :
  String.concat "" (x :: l) = x ++ String.concat "" l.
Proof. destruct l; simpl; [rewrite str_append_nil_r|]; reflexivity. Qed.

Lemma pdf_pages_text_ok (pages : list (option string)) (text : string) :
  pdf_pages_text (map Ok pages) text
  = Ok (text ++ String.concat "" (map page_text pages)).
Proof.
  revert text; induction pages as [|t rest IH]; intro text; cbn [map pdf_pages_text].
  - rewrite str_append_nil_r. reflexivity.
  - rewrite IH, concat_empty_cons, str_append_assoc. do 3 f_equal.
    destruct t as [s|]; simpl; [|reflexivity].
    destruct (String.eqb s "") eqn:E; [apply String.eqb_eq in E; subst s|]; reflexivity.
Qed.

(** When every page yields its text (or nothing), [extract_text_from_pdf]
    returns the page texts concatenated in order, with no separator. *)
Theorem pdf_text_pages_concat (pages : list (option string)) :
  extract_text_from_pdf (Ok (map Ok pages)) = Ok (String.concat "" (map page_text pages)).
Proof.
  unfold extract_text_from_pdf. rewrite pdf_pages_text_ok. reflexivity.
Qed.

(** A page whose text extraction raises an [Exception] makes
    [extract_text_from_pdf] return the empty string: the text of the pages
    before it is dropped too. *)
Theorem pdf_page_failure_discards (before : list (option string))
  (e : exn) (after : list (outcome (option string)))
  (Hexc : is_exception e = true) :
  extract_text_from_pdf (Ok ((map Ok before ++ Raised e :: after)%list)) = Ok "".
Proof.
  unfold extract_text_from_pdf.
  assert (H : forall text, pdf_pages_text ((map Ok before ++ Raised e :: after)%list) text = Raised e).
  { induction before as [|t rest IH]; intro text; simpl; [reflexivity | apply IH]. }
  rewrite H, Hexc. reflexivity.
Qed.

Lemma pdf_page_failure_discards_witness :
  extract_text_from_pdf
    (Ok [Ok (Some "Page one"); Raised (mk_exn "KeyError" "/Contents" true); Ok (Some "Page three")])
  = Ok "".
Proof.
  exact (pdf_page_failure_discards [Some "Page one"] (mk_exn "KeyError" "/Contents" true)
           [Ok (Some "Page three")] eq_refl).
Defined.

(** The values on which the scalar check of [src/llm_agents.py] does not
    raise: absent, falsy, or a string. *)
Definition scalar_v0_safe (v : option json) : bool :=
  negb (truthy_opt v) || match v with Some (JStr _) => true | _ => false end.

Lemma clean_scalar_field_v0_safe (key : string) (d : dict) :
  scalar_v0_safe (dict_get key d) = true ->
  clean_scalar_field_v0 key d
  = Ok (if scalar_needs_sentinel (dict_get key d) then dict_set key (JStr "N/A") d else d).
Proof.
  unfold clean_scalar_field_v0, scalar_v0_safe, scalar_needs_sentinel.
  destruct (dict_get key d) as [v|]; simpl; [|reflexivity].
  destruct (truthy v); simpl; [|reflexivity].
  destruct v; simpl; try discriminate.
  intros _. destruct (is_na s); reflexivity.
Qed.

Lemma clean_scalar_field_v0_raises (key : string) (d : dict) (v : json) :
  dict_get key d = Some v -> truthy v = true -> (forall s, v <> JStr s) ->
  clean_scalar_field_v0 key d = Raised (attribute_error_lower v).
Proof.
  intros Hv Ht Hns. unfold clean_scalar_field_v0. rewrite Hv, Ht. simpl.
  destruct v; try reflexivity. exfalso; apply (Hns s); reflexivity.
Qed.

Lemma pre_scalar_get (o : dict) (k : string) :
  In k scalar_keys ->
  dict_get k (dict_set "deliverables"
                (JArr (cleaned_deliverables (dict_get "deliverables" (clean_list_fields list_keys o))))
                (clean_list_fields list_keys o))
  = dict_get k o.
Proof.
  intro Hin.
  assert (Hk : String.eqb k "deliverables" = false /\ ~ In k list_keys).
  { destruct Hin as [<-|[<-|[]]]; (split; [reflexivity | simpl; intuition discriminate]). }
  destruct Hk as [Hk1 Hk2].
  rewrite dict_get_set, Hk1, clean_list_fields_other by assumption. reflexivity.
Qed.

(** The extraction of [src/llm_agents.py] gives the same result as the one
    of [src/agents/data_extraction_agent.py] whenever the decoded object's
    project_name and client_name are each absent, falsy or a string: the
    two differ only in the missing [isinstance] guard. *)
Theorem after_response_v0_agrees (loads : string -> option json) (response_content : string)
  (Hsafe : forall o, loads response_content = Some (JObj o) ->
           scalar_v0_safe (dict_get "project_name" o) = true
           /\ scalar_v0_safe (dict_get "client_name" o) = true) :
  after_response_v0 loads response_content = after_response loads response_content.
Proof.
  unfold after_response_v0, after_response.
  destruct (loads response_content) as [parsed|] eqn:Hl; [|reflexivity].
  destruct parsed as [| | | | |o]; try reflexivity.
  destruct (Hsafe o eq_refl) as [Hp Hc]. simpl.
  unfold normalize_v0, normalize.
  set (d2 := dict_set "deliverables" _ _).
  assert (Gp : dict_get "project_name" d2 = dict_get "project_name" o)
    by (apply pre_scalar_get; left; reflexivity).
  assert (Gc : dict_get "client_name" d2 = dict_get "client_name" o)
    by (apply pre_scalar_get; right; left; reflexivity).
  rewrite clean_scalar_field_v0_safe by (rewrite Gp; assumption).
  set (d3 := if scalar_needs_sentinel (dict_get "project_name" d2)
             then dict_set "project_name" (JStr "N/A") d2 else d2).
  assert (G3 : dict_get "client_name" d3 = dict_get "client_name" d2).
  { unfold d3. destruct (scalar_needs_sentinel (dict_get "project_name" d2)); [|reflexivity].
    rewrite dict_get_set. reflexivity. }
  rewrite clean_scalar_field_v0_safe by (rewrite G3, Gc; assumption).
  reflexivity.
Qed.

Lemma after_response_v0_agrees_witness :
  after_response_v0 json_loads
    ("{" ++ quoted "project_name" ++ ": " ++ quoted "Apollo" ++ "}")
  = after_response json_loads
    ("{" ++ quoted "project_name" ++ ": " ++ quoted "Apollo" ++ "}").
Proof.
  apply after_response_v0_agrees.
  intros o Ho. vm_compute in Ho. injection Ho as <-. split; reflexivity.
Defined.

(** Where they differ: a truthy non-string project_name (a number, a list,
    an object, [true]) makes [src/llm_agents.py] answer with an
    unexpected-error record naming the value's type, while the current
    agent keeps the value. *)
Theorem v0_non_string_name_fails (loads : string -> option json) (response_content : string)
  (o : dict) (v : json)
  (Hdecode : loads response_content = Some (JObj o))
  (Hv : dict_get "project_name" o = Some v)
  (Ht : truthy v = true)
  (Hns : forall s, v <> JStr s) :
  after_response_v0 loads response_content
  = error_dict (unexpected_prefix ++ "'" ++ py_type_name v ++ "' object has no attribute 'lower'")
  /\ dict_get "project_name" (after_response loads response_content) = Some v.
Proof.
  split.
  - unfold after_response_v0. rewrite Hdecode. simpl. unfold normalize_v0.
    rewrite clean_scalar_field_v0_raises with (v := v);
      [reflexivity | rewrite pre_scalar_get by (left; reflexivity); exact Hv | exact Ht | exact Hns].
  - unfold after_response. rewrite Hdecode. simpl.
    rewrite normalize_scalar_field by (left; reflexivity).
    rewrite Hv. unfold scalar_needs_sentinel. simpl. rewrite Ht. simpl.
    destruct v; try reflexivity. exfalso; apply (Hns s); reflexivity.
Qed.

Lemma v0_non_string_name_fails_witness :
  after_response_v0 json_loads ("{" ++ quoted "project_name" ++ ": 2024}")
  = error_dict (unexpected_prefix ++ "'int' object has no attribute 'lower'")
  /\ dict_get "project_name" (after_response json_loads ("{" ++ quoted "project_name" ++ ": 2024}"))
     = Some (JNum 2024).
Proof.
  apply (v0_non_string_name_fails json_loads _ [("project_name", JNum 2024)] (JNum 2024));
    [vm_compute; reflexivity | reflexivity | reflexivity | discriminate].
Defined.

Lemma fragments_project (d : dict) (f : proposal_fragments) :
  compute_proposal_fragments d = Ok f ->
  deliverables_fragment (dict_get "deliverables" d) = Ok (deliverables_text f)
  /\ join_or ", " (dict_get "technical_requirements" d) technical_fallback
     = Ok (technical_requirements_str f)
  /\ join_or ", " (dict_get "stakeholders" d) stakeholders_fallback = Ok (stakeholders_str f)
  /\ join_or " " (dict_get "timeline_overview" d) timeline_fallback = Ok (timeline_str f).
Proof.
  intro H. unfold compute_proposal_fragments in H.
  repeat (match type of H with
          | context [match ?m with Ok _ => _ | Raised _ => _ end] =>
              destruct m eqn:?; [|discriminate H]
          end).
  injection H as <-. simpl. repeat split; assumption.
Qed.

Lemma cleaned_string_deliverables (names : list string) :
  Forall (fun n => is_na n = false) names ->
  cleaned_deliverables (Some (JArr (map JStr names)))
  = map (fun n => JObj [("name", JStr n); ("description", JStr not_detailed)]) names.
Proof.
  unfold cleaned_deliverables. induction 1 as [|n rest Hn _ IH]; [reflexivity|].
  simpl. rewrite Hn. simpl. rewrite IH. reflexivity.
Qed.

Definition string_deliverable_line (name : string) : string :=
  "- **" ++ name ++ "**: " ++ not_detailed.

(** A deliverables list of plain strings, none of them "N/A" in any case,
    reaches the proposal prompt as one line per name, in order, each marked
    as not detailed: the cleanup turns each name into a name/description
    object and the generator renders that object. *)
Theorem string_deliverables_rendered (o : dict) (names : list string)
  (Hraw : dict_get "deliverables" o = Some (JArr (map JStr names)))
  (Hna : Forall (fun n => is_na n = false) names)
  (Hne : names <> []) :
  exists f, compute_proposal_fragments (normalize o) = Ok f
  /\ deliverables_text f = nl ++ String.concat nl (map string_deliverable_line names).
Proof.
  destruct (proposal_fragments_of_normalized_aux o) as [f Hf].
  exists f. split; [exact Hf|].
  destruct (fragments_project _ _ Hf) as [Hd _].
  rewrite normalize_deliverables, Hraw in Hd.
  rewrite cleaned_string_deliverables in Hd by exact Hna.
  assert (Hb : flat_map (fun x => match deliverable_line x with Some s => [s] | None => [] end)
                 (map (fun n => JObj [("name", JStr n); ("description", JStr not_detailed)]) names)
               = map string_deliverable_line names).
  { clear. induction names as [|n rest IH]; [reflexivity|]. simpl. rewrite IH. reflexivity. }
  unfold deliverables_fragment in Hd.
  replace (truthy_opt (Some (JArr (map (fun n => JObj [("name", JStr n); ("description", JStr not_detailed)]) names))))
    with true in Hd by (destruct names; [contradiction Hne; reflexivity | reflexivity]).
  cbn beta iota delta [deliverables_builder] in Hd. rewrite Hb in Hd.
  destruct names as [|n rest]; [contradiction Hne; reflexivity|].
  injection Hd as <-. reflexivity.
Qed.

Lemma string_deliverables_rendered_witness :
  exists f, compute_proposal_fragments (normalize [("deliverables", JArr [JStr "Report"; JStr "n/a"; JStr "Demo"])]) = Ok f
  /\ deliverables_text f = nl ++ "- **Report**: Not detailed by AI" ++ nl ++ "- **Demo**: Not detailed by AI".
Proof.
  destruct (string_deliverables_rendered [("deliverables", JArr (map JStr ["Report"; "Demo"]))]
              ["Report"; "Demo"] eq_refl) as [f [Hf Ht]];
    [repeat constructor | discriminate |].
  exists f. split; [|exact Ht].
  rewrite <- Hf. vm_compute. reflexivity.
Defined.

(** On cleaned data, the technical requirements and the stakeholders reach
    the prompt joined by a comma and a space, and the timeline entries
    joined by a space; an empty list gives the fixed fallback text. *)
Theorem joined_fragments_of_normalized (o : dict) :
  exists f, compute_proposal_fragments (normalize o) = Ok f
  /\ (forall l, dict_get "technical_requirements" (normalize o) = Some (JArr (map JStr l)) ->
        technical_requirements_str f
        = match l with [] => technical_fallback | _ => String.concat ", " l end)
  /\ (forall l, dict_get "stakeholders" (normalize o) = Some (JArr (map JStr l)) ->
        stakeholders_str f
        = match l with [] => stakeholders_fallback | _ => String.concat ", " l end)
  /\ (forall l, dict_get "timeline_overview" (normalize o) = Some (JArr (map JStr l)) ->
        timeline_str f
        = match l with [] => timeline_fallback | _ => String.concat " " l end).
Proof.
  destruct (proposal_fragments_of_normalized_aux o) as [f Hf].
  exists f. split; [exact Hf|].
  destruct (fragments_project _ _ Hf) as [_ [Ht [Hs Hl]]].
  repeat split; intros l Hget.
  - rewrite Hget, join_or_strings in Ht. injection Ht as <-. reflexivity.
  - rewrite Hget, join_or_strings in Hs. injection Hs as <-. reflexivity.
  - rewrite Hget, join_or_strings in Hl. injection Hl as <-. reflexivity.
Qed.
